(** * prysm/_phase.py: the [OpticalPhase] class and its unit bookkeeping

    A shallow embedding of the class [OpticalPhase]: its alias table
    [units], its table of conversion factors [unit_changes], the unit
    properties with their setters, the diameters, and the two methods
    [change_phase_unit] and [change_spatial_unit].

    Numbers are exact rationals ([Qc], canonical fractions with Leibniz
    equality): the properties below are the algebraic ones, which the
    floating-point program satisfies up to rounding.  Python strings are
    UTF-8 byte strings.  An instance is a record of its attributes, and a
    method is a function from the instance before the call to the outcome of
    the call (a value or an exception) and the instance after it. *)

From Stdlib Require Import NArith Ascii String QArith Qcanon.
From stdpp Require Import base strings gmap list.

#[local] Open Scope Qc_scope.

(** ** The Python builtins the module uses *)
Module Py.

(** The exceptions that the modelled code can raise.  [ValueError] carries
    the two interpolated parts of the message of the unit setters: the
    offending unit and the set of valid names.  [NonFinite] is not a Python
    exception: numpy divides an array by a zero scalar without raising and
    yields [inf]/[nan] entries, which are not rationals, so the model stops
    there. *)
Inductive exn : Type :=
| KeyError (key : string)
| ValueError (unit : string) (valid : gset string)
| TypeError
| ZeroDivisionError
| IndexError
| NonFinite.

#[global] Instance exn_eq_dec : EqDecision exn.
Proof. solve_decision. Defined.

Inductive result (A : Type) : Type :=
| Ok (a : A)
| Raise (e : exn).
#[global] Arguments Ok {A} a.
#[global] Arguments Raise {A} e.

#[global] Instance result_eq_dec `{EqDecision A} : EqDecision (result A).
Proof. solve_decision. Defined.

Definition rbind {A B} (r : result A) (k : A -> result B) : result B :=
  match r with
  | Ok a => k a
  | Raise e => Raise e
  end.

(** A scalar argument of a conversion lambda: [None] or a float. *)
Inductive value : Type :=
| PyNone
| PyFloat (q : Qc).

#[global] Instance value_eq_dec : EqDecision value.
Proof. solve_decision. Defined.

(** [a * b] on scalars: a missing operand is a [TypeError]. *)
Definition mul (a b : value) : result value :=
  match a, b with
  | PyFloat p, PyFloat q => Ok (PyFloat (p * q))
  | _, _ => Raise TypeError
  end.

(** [a / b] on scalars: a missing operand is a [TypeError], a zero divisor
    a [ZeroDivisionError]. *)
Definition truediv (a b : value) : result value :=
  match a, b with
  | PyFloat p, PyFloat q =>
      if decide (q = 0) then Raise ZeroDivisionError else Ok (PyFloat (p / q))
  | _, _ => Raise TypeError
  end.

(** [max((a, b))]: the first of the largest items. *)
Definition max2 (a b : Qc) : Qc := if decide (a < b) then b else a.

(** [d[k]] on a dict. *)
Definition getitem {V} (d : gmap string V) (k : string) : result V :=
  match d !! k with
  | Some v => Ok v
  | None => Raise (KeyError k)
  end.

(** [sep.join(parts)]. *)
Definition join (sep : string) (parts : list string) : string :=
  String.concat sep parts.

Definition between (lo hi n : N) : bool := ((lo <=? n) && (n <=? hi))%N.

(** [s.lower()] on a UTF-8 string.  Covered: Basic Latin, the Latin-1
    capitals (U+00C0..U+00DE but U+00D7), the Greek capitals
    (U+0391..U+03A9, sigma always to its medial form) and the signs Ohm,
    Kelvin and Angstrom (U+2126, U+212A, U+212B).  Every other code point is
    left as it is. *)
Fixpoint lower (s : string) : string :=
  match s with
  | EmptyString => EmptyString
  | String c s1 =>
      let n := N_of_ascii c in
      if between 65 90 n then String (ascii_of_N (n + 32)) (lower s1)
      else match s1 with
           | EmptyString => String c EmptyString
           | String d s2 =>
               let m := N_of_ascii d in
               if (n =? 195)%N && between 128 158 m && negb (m =? 151)%N
               then String c (String (ascii_of_N (m + 32)) (lower s2))
               else if (n =? 206)%N && between 145 159 m
               then String c (String (ascii_of_N (m + 32)) (lower s2))
               else if (n =? 206)%N && between 160 169 m && negb (m =? 162)%N
               then String (ascii_of_N 207) (String (ascii_of_N (m - 32)) (lower s2))
               else if (n =? 226)%N && (m =? 132)%N
               then match s2 with
                    | EmptyString => String c (String d EmptyString)
                    | String f s3 =>
                        let k := N_of_ascii f in
                        if (k =? 171)%N
                        then String (ascii_of_N 195) (String (ascii_of_N 165) (lower s3))
                        else if (k =? 170)%N
                        then String (ascii_of_N 107) (lower s3)
                        else if (k =? 166)%N
                        then String (ascii_of_N 207) (String (ascii_of_N 137) (lower s3))
                        else String c (String d (String f (lower s3)))
                    end
               else String c (lower s1)
           end
  end.

(** [s.upper()] on a UTF-8 string, for Basic Latin and the Latin-1 small
    letters U+00E0..U+00FE but U+00F7; the module applies it to one string,
    a-with-ring (U+00E5). *)
Fixpoint upper (s : string) : string :=
  match s with
  | EmptyString => EmptyString
  | String c s1 =>
      let n := N_of_ascii c in
      if between 97 122 n then String (ascii_of_N (n - 32)) (upper s1)
      else match s1 with
           | EmptyString => String c EmptyString
           | String d s2 =>
               let m := N_of_ascii d in
               if (n =? 195)%N && between 160 190 m && negb (m =? 183)%N
               then String c (String (ascii_of_N (m - 32)) (upper s2))
               else String c (upper s1)
           end
  end.

End Py.

(** ** The numpy operations the module uses *)
Module np.
Import Py.

(** [a / f] for a one-dimensional array [a] and a scalar [f]. *)
Definition divide (a : list Qc) (f : value) : result (list Qc) :=
  match f with
  | PyNone => Raise TypeError
  | PyFloat q => if decide (q = 0) then Raise NonFinite
                 else Ok (map (fun v => v / q) a)
  end.

(** [a / f] for a two-dimensional array [a] and a scalar [f]. *)
Definition divide2 (a : list (list Qc)) (f : value) : result (list (list Qc)) :=
  match f with
  | PyNone => Raise TypeError
  | PyFloat q => if decide (q = 0) then Raise NonFinite
                 else Ok (map (map (fun v => v / q)) a)
  end.

(** [arange(n, dtype=config.precision)]: the floats [0, 1, ..., n-1]. *)
Definition arange (n : nat) : list Qc :=
  map (fun i => Q2Qc (inject_Z (Z.of_nat i))) (seq 0 n).

End np.


(** ** The class [OpticalPhase] *)
Module OpticalPhase.
Import Py.

(** *** Class attributes *)

(** [units]: every accepted unit name with its canonical code, in the order
    of the dict literal. *)
Definition units_items : list (string * string) :=
  [ ("m", "m"); ("meter", "m");
    ("mm", "mm"); ("millimeter", "mm");
    ("μm", "μm"); ("um", "μm"); ("micron", "μm"); ("micrometer", "μm");
    ("nm", "nm"); ("nanometer", "nm");
    ("Å", "Å"); ("aa", "Å"); ("angstrom", "Å");
    ("λ", "λ"); ("waves", "λ"); ("lambda", "λ");
    ("px", "px"); ("pixel", "px") ].

Definition units : gmap string string := list_to_map units_items.

(** [unit_scales]: the length of each metric unit in meters. *)
Definition unit_scales : gmap string Qc :=
  list_to_map
    [ ("m", 1); ("mm", Q2Qc 1e-3); ("μm", Q2Qc 1e-6); ("nm", Q2Qc 1e-9);
      ("Å", Q2Qc 1e-10) ].

(** [unit_changes]: one lambda of the wavelength per key [from_to], in the
    order of the dict literal. *)
Definition unit_changes_items : list (string * (value -> result value)) :=
  [ ("m_m", fun x => Ok (PyFloat 1));
    ("m_mm", fun x => Ok (PyFloat (Q2Qc 1e-3)));
    ("m_μm", fun x => Ok (PyFloat (Q2Qc 1e-6)));
    ("m_nm", fun x => Ok (PyFloat (Q2Qc 1e-9)));
    ("m_Å", fun x => Ok (PyFloat (Q2Qc 1e-10)));
    ("m_λ", fun x => mul (PyFloat (Q2Qc 1e-6)) x);
    ("mm_mm", fun x => Ok (PyFloat 1));
    ("mm_m", fun x => Ok (PyFloat (Q2Qc 1e3)));
    ("mm_μm", fun x => Ok (PyFloat (Q2Qc 1e-3)));
    ("mm_nm", fun x => Ok (PyFloat (Q2Qc 1e-6)));
    ("mm_Å", fun x => Ok (PyFloat (Q2Qc 1e-7)));
    ("mm_λ", fun x => mul (PyFloat (Q2Qc 1e-3)) x);
    ("μm_μm", fun x => Ok (PyFloat 1));
    ("μm_m", fun x => Ok (PyFloat (Q2Qc 1e6)));
    ("μm_mm", fun x => Ok (PyFloat (Q2Qc 1e3)));
    ("μm_nm", fun x => Ok (PyFloat (Q2Qc 1e-3)));
    ("μm_Å", fun x => Ok (PyFloat (Q2Qc 1e-4)));
    ("μm_λ", fun x => mul (PyFloat 1) x);
    ("nm_nm", fun x => Ok (PyFloat 1));
    ("nm_m", fun x => Ok (PyFloat (Q2Qc 1e9)));
    ("nm_mm", fun x => Ok (PyFloat (Q2Qc 1e6)));
    ("nm_μm", fun x => Ok (PyFloat (Q2Qc 1e3)));
    ("nm_Å", fun x => Ok (PyFloat (Q2Qc 1e-1)));
    ("nm_λ", fun x => mul (PyFloat (Q2Qc 1e3)) x);
    ("Å_Å", fun x => Ok (PyFloat 1));
    ("Å_m", fun x => Ok (PyFloat (Q2Qc 1e10)));
    ("Å_mm", fun x => Ok (PyFloat (Q2Qc 1e7)));
    ("Å_μm", fun x => Ok (PyFloat (Q2Qc 1e4)));
    ("Å_nm", fun x => Ok (PyFloat (Q2Qc 10)));
    ("Å_λ", fun x => mul (PyFloat (Q2Qc 1e4)) x);
    ("λ_λ", fun x => Ok (PyFloat 1));
    ("λ_m", fun x => truediv (PyFloat (Q2Qc 1e6)) x);
    ("λ_mm", fun x => truediv (PyFloat (Q2Qc 1e3)) x);
    ("λ_μm", fun x => Ok x);
    ("λ_nm", fun x => truediv (PyFloat (Q2Qc 1e-3)) x);
    ("λ_Å", fun x => truediv (PyFloat (Q2Qc 1e-4)) x);
    ("px_px", fun x => Ok (PyFloat 1));
    ("px_m", fun x => Ok (PyFloat 1));
    ("px_mm", fun x => Ok (PyFloat 1));
    ("px_μm", fun x => Ok (PyFloat 1));
    ("px_nm", fun x => Ok (PyFloat 1));
    ("px_Å", fun x => Ok (PyFloat 1));
    ("px_λ", fun x => Ok (PyFloat 1)) ].

Definition unit_changes : gmap string (value -> result value) :=
  list_to_map unit_changes_items.

(** *** Instances *)

(** The attributes of an instance.  [x], [y], [phase], the labels, [xyunit]
    and [zunit] are the attributes of the base class [BasicData];
    [_phase_unit] and [_spatial_unit] exist only once the setter of that
    name has run. *)
Record t : Type := mk {
  x : list Qc;
  y : list Qc;
  phase : list (list Qc);
  xlabel : string;
  ylabel : string;
  zlabel : string;
  xyunit : string;
  zunit : string;
  wavelength : value;
  _phase_unit : option string;
  _spatial_unit : option string
}.

#[global] Instance t_eq_dec : EqDecision t.
Proof. solve_decision. Defined.

Definition with_x (v : list Qc) (s : t) : t :=
  mk v (y s) (phase s) (xlabel s) (ylabel s) (zlabel s) (xyunit s) (zunit s)
     (wavelength s) (_phase_unit s) (_spatial_unit s).

Definition with_y (v : list Qc) (s : t) : t :=
  mk (x s) v (phase s) (xlabel s) (ylabel s) (zlabel s) (xyunit s) (zunit s)
     (wavelength s) (_phase_unit s) (_spatial_unit s).

Definition with_phase (v : list (list Qc)) (s : t) : t :=
  mk (x s) (y s) v (xlabel s) (ylabel s) (zlabel s) (xyunit s) (zunit s)
     (wavelength s) (_phase_unit s) (_spatial_unit s).

Definition with_wavelength (v : value) (s : t) : t :=
  mk (x s) (y s) (phase s) (xlabel s) (ylabel s) (zlabel s) (xyunit s) (zunit s)
     v (_phase_unit s) (_spatial_unit s).

Definition with__phase_unit (v : string) (s : t) : t :=
  mk (x s) (y s) (phase s) (xlabel s) (ylabel s) (zlabel s) (xyunit s) (zunit s)
     (wavelength s) (Some v) (_spatial_unit s).

Definition with__spatial_unit (v : string) (s : t) : t :=
  mk (x s) (y s) (phase s) (xlabel s) (ylabel s) (zlabel s) (xyunit s) (zunit s)
     (wavelength s) (_phase_unit s) (Some v).

(** Modelled from the spec: the constructor of the base class [BasicData],
    which is not in this file.  The spec gives the base class the attributes
    [x], [y], [data] (here [phase], the class's [_data_attr]), [xyunit] and
    [zunit] and a construction from (x, y, data, labels, units): each argument
    is stored under its own name, as it is given. *)
Definition BasicData__init__ (x y : list Qc) (data : list (list Qc))
    (xlabel ylabel zlabel xyunit zunit : string) : t :=
  mk x y data xlabel ylabel zlabel xyunit zunit PyNone None None.

(** Modelled from the spec: the [shape] property of the base class, the
    shape (rows, columns) of the data grid; a grid is a list of rows of one
    length. *)
Definition shape (self : t) : nat * nat :=
  (length (phase self), match phase self with [] => 0%nat | r :: _ => length r end).

(** [__init__]: the units go to the base class as [xyunit=spatial_unit] and
    [zunit=phase_unit]; the defaults of the keyword arguments are
    ['x'], ['y'], ['z'], ['mm'], ['nm'] and [None]. *)
Definition __init__ (x y : list Qc) (phase : list (list Qc))
    (xlabel ylabel zlabel spatial_unit phase_unit : string) (wavelength : value) : t :=
  let self := BasicData__init__ x y phase xlabel ylabel zlabel spatial_unit phase_unit in
  with_wavelength wavelength self.

(** *** Methods: state and exceptions *)

(** A method maps the instance before the call to the outcome of the call
    and the instance after it; an exception leaves the assignments made
    before it in place. *)
Definition M (A : Type) : Type := t -> result A * t.

Definition ret {A} (a : A) : M A := fun s => (Ok a, s).
Definition raise {A} (e : exn) : M A := fun s => (Raise e, s).
Definition bind {A B} (m : M A) (k : A -> M B) : M B :=
  fun s => match m s with
           | (Ok a, s') => k a s'
           | (Raise e, s') => (Raise e, s')
           end.
Definition lift {A} (r : result A) : M A := fun s => (r, s).
Definition gets {A} (f : t -> A) : M A := fun s => (Ok (f s), s).
Definition modify (f : t -> t) : M unit := fun s => (Ok tt, f s).

Declare Scope py_scope.
Delimit Scope py_scope with py.
Notation "v <- m ;; k" := (bind m (fun v => k))
  (at level 100, m at next level, right associativity) : py_scope.
Notation "m ;;; k" := (bind m (fun _ => k))
  (at level 100, right associativity) : py_scope.
#[local] Open Scope py_scope.

(** *** Properties *)

(** [phase_unit] (getter). *)
Definition phase_unit (self : t) : string := xyunit self.

(** [phase_unit] (setter). *)
Definition set_phase_unit (unit : string) : M Datatypes.unit :=
  let unit := lower unit in
  if decide (unit = "å") then
    modify (with__phase_unit (upper unit))
  else
    if decide (units !! unit = None) then
      raise (ValueError unit (dom units))
    else
      c <- lift (getitem units unit) ;;
      modify (with__phase_unit c).

(** [spatial_unit] (getter). *)
Definition spatial_unit (self : t) : string := zunit self.

(** [spatial_unit] (setter). *)
Definition set_spatial_unit (unit : string) : M Datatypes.unit :=
  let unit := lower unit in
  if decide (units !! unit = None) then
    raise (ValueError unit (dom units))
  else
    c <- lift (getitem units unit) ;;
    modify (with__spatial_unit c).

(** [x[0]] and [x[-1]] on an axis. *)
Definition first (a : list Qc) : result Qc :=
  match head a with Some v => Ok v | None => Raise IndexError end.
Definition final (a : list Qc) : result Qc :=
  match last a with Some v => Ok v | None => Raise IndexError end.

Definition diameter_x (self : t) : result Qc :=
  rbind (final (x self)) (fun hi =>
  rbind (first (x self)) (fun lo => Ok (hi - lo))).

Definition diameter_y (self : t) : result Qc :=
  rbind (final (y self)) (fun hi =>
  rbind (first (x self)) (fun lo => Ok (hi - lo))).

Definition diameter (self : t) : result Qc :=
  rbind (diameter_x self) (fun dx =>
  rbind (diameter_y self) (fun dy => Ok (max2 dx dy))).

Definition semidiameter (self : t) : result Qc :=
  rbind (diameter self) (fun d => Ok (d / Q2Qc 2)).

(** *** The two conversions *)

(** What a conversion returns: [self], the new phase, or the two new axes. *)
Inductive returned : Type :=
| Self
| Array (new_phase : list (list Qc))
| Axes (new_ux new_uy : list Qc).

#[global] Instance returned_eq_dec : EqDecision returned.
Proof. solve_decision. Defined.

Definition change_phase_unit (to : string) (inplace : bool) : M returned :=
  from <- gets phase_unit ;;
  target <- lift (getitem units to) ;;
  f <- lift (getitem unit_changes (join "_" [from; target])) ;;
  w <- gets wavelength ;;
  fctr <- lift (f w) ;;
  p <- gets phase ;;
  new_phase <- lift (np.divide2 p fctr) ;;
  if inplace then
    modify (with_phase new_phase) ;;;
    set_phase_unit to ;;;
    ret Self
  else
    ret (Array new_phase).

Definition change_spatial_unit (to : string) (inplace : bool) : M returned :=
  axes <-
    (if decide (lower to <> "px") then
       from <- gets spatial_unit ;;
       target <- lift (getitem units to) ;;
       f <- lift (getitem unit_changes (join "_" [from; target])) ;;
       w <- gets wavelength ;;
       fctr <- lift (f w) ;;
       ux <- gets x ;;
       new_ux <- lift (np.divide ux fctr) ;;
       uy <- gets y ;;
       new_uy <- lift (np.divide uy fctr) ;;
       ret (new_ux, new_uy)
     else
       s <- gets shape ;;
       ret (np.arange (snd s), np.arange (fst s))) ;;
  if inplace then
    modify (with_x (fst axes)) ;;;
    modify (with_y (snd axes)) ;;;
    set_spatial_unit to ;;;
    ret Self
  else
    ret (Axes (fst axes) (snd axes)).

(** *** Rendering *)

Section Rendering.

(** The numeric engine and the plotting library are not part of this file;
    they are parameters.  [fringe visibility passes v] stands for the sample
    [visibility * e.sin(2 * e.pi * passes * v)], with values in [pixel].
    [canvas] is the state of the plotting library, [figure], [axes] and
    [image] are its objects, and [failure] is whatever one of its calls may
    raise. *)
Context {pixel canvas figure axes image failure : Type}.
Context (fringe : Qc -> Qc -> Qc -> pixel).

(** The arguments of [ax.imshow]. *)
Record imshow_arguments : Type := mk_imshow {
  plotdata : list (list pixel);
  extent : list Qc;
  cmap : string;
  interpolation : string;
  clim : Qc * Qc;
  origin : string
}.

(** The four plotting calls, [share_fig_ax(fig, ax)], [ax.imshow(...)],
    [fig.colorbar(im, label=, ax=, fraction=)] and
    [ax.set(xlabel=, ylabel=)]: each takes the state of the plotting library
    to what it returns or raises and the state after it. *)
Context
  (share_fig_ax : option figure -> option axes -> canvas ->
                  (failure + figure * axes) * canvas)
  (ax_imshow : axes -> imshow_arguments -> canvas -> (failure + image) * canvas)
  (fig_colorbar : figure -> image -> string -> axes -> Qc -> canvas ->
                  (failure + Datatypes.unit) * canvas)
  (ax_set : axes -> string -> string -> canvas ->
            (failure + Datatypes.unit) * canvas).

(** What [interferogram] does: it returns [(fig, ax)], raises an exception
    of this module, or raises what a plotting call raised. *)
Inductive rendered : Type :=
| Drawn (fig : figure) (ax : axes)
| Raised (ex : exn)
| PlotFailed (f : failure).

(** The plotting part of [interferogram], from [share_fig_ax] on. *)
Definition draw (args : option figure * option axes * imshow_arguments)
    (c : canvas) : rendered * canvas :=
  match share_fig_ax (fst (fst args)) (snd (fst args)) c with
  | (inl f, c1) => (PlotFailed f, c1)
  | (inr (fig, ax), c1) =>
      match ax_imshow ax (snd args) c1 with
      | (inl f, c2) => (PlotFailed f, c2)
      | (inr im, c2) =>
          match fig_colorbar fig im "Wrapped Phase [$\lambda$]" ax (Q2Qc 0.046) c2 with
          | (inl f, c3) => (PlotFailed f, c3)
          | (inr _, c3) =>
              match ax_set ax "Pupil $\xi$ [mm]" "Pupil $\eta$ [mm]" c3 with
              | (inl f, c4) => (PlotFailed f, c4)
              | (inr _, c4) => (Drawn fig ax, c4)
              end
          end
      end
  end.

(** [interferogram]; the defaults of the keyword arguments are
    [visibility=1], [passes=2], [interp_method='lanczos'], [fig=None] and
    [ax=None].  With [inplace=False] the conversion returns an array; the
    other returns cannot be multiplied. *)
Definition interferogram (visibility passes : Qc) (interp_method : string)
    (fig : option figure) (ax : option axes) (self : t) (c : canvas)
    : rendered * t * canvas :=
  match diameter self with
  | Raise ex => (Raised ex, self, c)
  | Ok epd =>
      match change_phase_unit "waves" false self with
      | (Raise ex, self1) => (Raised ex, self1, c)
      | (Ok (Array phase), self1) =>
          let plotdata := map (map (fringe visibility passes)) phase in
          let out :=
            draw (fig, ax,
                  mk_imshow plotdata
                    [- epd / Q2Qc 2; epd / Q2Qc 2; - epd / Q2Qc 2; epd / Q2Qc 2]
                    "Greys_r" interp_method (Q2Qc (-1), 1) "lower") c in
          (fst out, self1, snd out)
      | (Ok _, self1) => (Raised TypeError, self1, c)
      end
  end.

End Rendering.

End OpticalPhase.


(** * Derived notions *)

Import Py OpticalPhase.
#[local] Open Scope py_scope.

(** The canonical unit codes: the values of [units]. *)
Definition canonical_codes : list string :=
  ["m"; "mm"; "μm"; "nm"; "Å"; "λ"; "px"].

(** The factor expression shared by both conversions:
    [unit_changes['_'.join([from, to])](w)], [None] when the key is absent. *)
Definition factor (from to : string) (w : value) : option (result value) :=
  match unit_changes !! join "_" [from; to] with
  | Some f => Some (f w)
  | None => None
  end.

(** The two factors between [a] and [b] at wavelength [w] are defined and
    reciprocal. *)
Definition reciprocal_at (a b : string) (w : Qc) : Prop :=
  exists fab fba : Qc,
    factor a b (PyFloat w) = Some (Ok (PyFloat fab)) /\
    factor b a (PyFloat w) = Some (Ok (PyFloat fba)) /\
    fab = 1 / fba.

(** The calls that touch the units of an instance: an assignment to one of
    the two unit properties, or one of the two conversions. *)
Inductive call : Type :=
| SetPhaseUnit (unit : string)
| SetSpatialUnit (unit : string)
| ChangePhaseUnit (to : string) (inplace : bool)
| ChangeSpatialUnit (to : string) (inplace : bool).

Definition outcome (c : call) (e : t) : result returned * t :=
  match c with
  | SetPhaseUnit u => (bind (set_phase_unit u) (fun _ => ret Self)) e
  | SetSpatialUnit u => (bind (set_spatial_unit u) (fun _ => ret Self)) e
  | ChangePhaseUnit to inplace => change_phase_unit to inplace e
  | ChangeSpatialUnit to inplace => change_spatial_unit to inplace e
  end.

(** The instance after a call, whether the call returned or raised. *)
Definition after (c : call) (e : t) : t := snd (outcome c e).

Definition after_all (cs : list call) (e : t) : t :=
  fold_left (fun s c => after c s) cs e.

(** Two instances that agree on every attribute but [_phase_unit] and
    [_spatial_unit]. *)
Definition same_but_set_units (a b : t) : Prop :=
  x a = x b /\ y a = y b /\ phase a = phase b /\
  xlabel a = xlabel b /\ ylabel a = ylabel b /\ zlabel a = zlabel b /\
  xyunit a = xyunit b /\ zunit a = zunit b /\ wavelength a = wavelength b.

(** The phase that [change_phase_unit] computes before it looks at
    [inplace]. *)
Definition new_phase (to : string) (e : t) : result (list (list Qc)) :=
  rbind (getitem units to) (fun target =>
  rbind (getitem unit_changes (join "_" [phase_unit e; target])) (fun f =>
  rbind (f (wavelength e)) (fun fctr => np.divide2 (phase e) fctr))).

(** The axes that [change_spatial_unit] computes before it looks at
    [inplace]. *)
Definition new_axes (to : string) (e : t) : result (list Qc * list Qc) :=
  if decide (lower to <> "px") then
    rbind (getitem units to) (fun target =>
    rbind (getitem unit_changes (join "_" [spatial_unit e; target])) (fun f =>
    rbind (f (wavelength e)) (fun fctr =>
    rbind (np.divide (x e) fctr) (fun new_ux =>
    rbind (np.divide (y e) fctr) (fun new_uy => Ok (new_ux, new_uy))))))
  else Ok (np.arange (snd (shape e)), np.arange (fst (shape e))).

(** The codes of the units of length: the canonical codes but the pixel. *)
Definition length_codes : list string := ["m"; "mm"; "μm"; "nm"; "Å"; "λ"].

(** The length in meters of one unit at the wavelength [w] (in
    micrometers): [unit_scales] for a metric code, [1e-6 * w] for waves. *)
Definition scale_at (a : string) (w : Qc) : option Qc :=
  if decide (a = "λ") then Some (Q2Qc 1e-6 * w) else unit_scales !! a.

(** [_phase_unit] or [_spatial_unit] is unset or holds a canonical code. *)
Definition unset_or_canonical (o : option string) : Prop :=
  match o with
  | None => True
  | Some c => c ∈ canonical_codes
  end.

(** The samples of a grid divided by [q]. *)
Definition scaled (q : Qc) (p : list (list Qc)) : list (list Qc) :=
  map (map (fun v => v / q)) p.

(** ** Concrete instances *)

(** A one-sample instance constructed with both units ['nm'] and the HeNe
    wavelength. *)
Definition hene_nm : t :=
  __init__ [0] [0] [[1]] "x" "y" "z" "nm" "nm" (PyFloat (Q2Qc 0.6328)).

(** A 2 by 3 grid on millimeter axes, constructed with both units ['mm']
    and no wavelength. *)
Definition grid_mm : t :=
  __init__ [Q2Qc (-1); 0; 1] [Q2Qc (-2); Q2Qc 2]
           [[1; Q2Qc 2; Q2Qc 3]; [Q2Qc 4; Q2Qc 5; Q2Qc 6]]
           "x" "y" "z" "mm" "mm" PyNone.

(** One-sample instances constructed with both units equal to [unit]. *)
Definition one_sample (unit : string) (v : Qc) (wavelength : value) : t :=
  __init__ [0] [0] [[v]] "x" "y" "z" unit unit wavelength.

(** An instance on pixel axes that are not the index sequence. *)
Definition shifted_pixels : t :=
  __init__ [Q2Qc 5; Q2Qc 7] [Q2Qc 3] [[1; 1]] "x" "y" "z" "px" "px" PyNone.

(** A plotting library for the examples: the canvas is the list of the
    calls made, latest first; [imshow] knows two interpolations and refuses
    the others; a pixel is the product of visibility, passes and sample. *)
Definition product_fringe (visibility passes v : Qc) : Qc :=
  visibility * passes * v.

Definition log_share_fig_ax (fig ax : option Datatypes.unit) (c : list string)
    : (string + Datatypes.unit * Datatypes.unit) * list string :=
  (inr (tt, tt), "share_fig_ax" :: c).

Definition log_imshow (ax : Datatypes.unit) (a : imshow_arguments (pixel := Qc))
    (c : list string) : (string + nat) * list string :=
  if decide (interpolation a ∈ ["lanczos"; "nearest"])
  then (inr (length (plotdata a)), "imshow" :: c)
  else (inl "unknown interpolation", c).

Definition log_colorbar (fig : Datatypes.unit) (im : nat) (label : string)
    (ax : Datatypes.unit) (fraction : Qc) (c : list string)
    : (string + Datatypes.unit) * list string :=
  (inr tt, "colorbar" :: c).

Definition log_set (ax : Datatypes.unit) (xlabel ylabel : string)
    (c : list string) : (string + Datatypes.unit) * list string :=
  (inr tt, "set" :: c).

(** The metric codes, and the metric codes but the micrometer. *)
Definition metric_codes : list string := ["m"; "mm"; "μm"; "nm"; "Å"].
Definition metric_codes_but_micrometer : list string := ["m"; "mm"; "nm"; "Å"].

(** * Basic facts *)

Section Arithmetic.

Lemma Qc_this_nonzero (w : Qc) : w <> 0 -> ~ (this w == 0)%Q.
Proof. intros H E. apply H, Qc_is_canon. exact E. Qed.

Lemma Qc_pos_nonzero (w : Qc) : 0 < w -> w <> 0.
Proof. intros H E. rewrite E in H. exact (Qclt_not_eq _ _ H eq_refl). Qed.

Lemma truediv_float (p q : Qc) :
  q <> 0 -> truediv (PyFloat p) (PyFloat q) = Ok (PyFloat (p / q)).
Proof.
  intros H. unfold truediv.
  destruct (decide (q = 0)); [contradiction | reflexivity].
Qed.

Lemma divide_float (a : list Qc) (q : Qc) :
  q <> 0 -> np.divide a (PyFloat q) = Ok (map (fun v => v / q) a).
Proof.
  intros H. unfold np.divide.
  destruct (decide (q = 0)); [contradiction | reflexivity].
Qed.

Lemma divide2_float (a : list (list Qc)) (q : Qc) :
  q <> 0 -> np.divide2 a (PyFloat q) = Ok (map (map (fun v => v / q)) a).
Proof.
  intros H. unfold np.divide2.
  destruct (decide (q = 0)); [contradiction | reflexivity].
Qed.

Lemma max2_upper (a b : Qc) : a <= max2 a b /\ b <= max2 a b.
Proof.
  unfold max2. destruct (decide (a < b)) as [Hlt | Hge].
  - split; [apply Qclt_le_weak, Hlt | apply Qcle_refl].
  - split; [apply Qcle_refl | apply Qcnot_lt_le, Hge].
Qed.

Lemma max2_either (a b : Qc) : max2 a b = a \/ max2 a b = b.
Proof. unfold max2. destruct (decide (a < b)); auto. Qed.

End Arithmetic.

(** Equations between rational expressions: move to [Q], where [field]
    knows the constants. *)
Ltac qc_field :=
  apply Qc_is_canon;
  first
    [ unfold Qcdiv, Qcmult, Qcinv, Qcplus, Qcminus, Qcopp, Q2Qc; simpl this;
      repeat rewrite !Qred_correct;
      field; repeat split; try (apply Qc_this_nonzero; assumption); try done
    | vm_compute; reflexivity ].

(** Replace the lookup of a literal key in [unit_changes] by its entry. *)
Ltac uc_lookup :=
  match goal with
  | |- context [unit_changes !! ?k] =>
      let H := fresh in
      eassert (H : unit_changes !! k = Some _) by reflexivity;
      rewrite H; clear H; cbn [snd]
  end.

Section Tables.

Lemma units_keys_NoDup : NoDup (units_items.*1).
Proof. compute_done. Qed.

Lemma unit_changes_keys_NoDup : NoDup (unit_changes_items.*1).
Proof. compute_done. Qed.

Lemma units_lookup_items (a c : string) :
  units !! a = Some c <-> (a, c) ∈ units_items.
Proof. symmetry. apply elem_of_list_to_map, units_keys_NoDup. Qed.

(** The canonical codes are exactly the values of the alias table. *)
Lemma canonical_codes_values (c : string) :
  c ∈ canonical_codes <-> exists a, units !! a = Some c.
Proof.
  split.
  - intros H. exists c. unfold canonical_codes in H.
    repeat (apply elem_of_cons in H as [-> | H]; [reflexivity |]).
    by apply elem_of_nil in H.
  - intros [a H]. apply units_lookup_items in H. unfold units_items in H.
    repeat (apply elem_of_cons in H as [[= -> ->] | H]; [compute_done |]).
    by apply elem_of_nil in H.
Qed.

Lemma units_size : size units = 18%nat.
Proof. reflexivity. Qed.

End Tables.

(** * The methods, step by step *)

Section Execution.

Lemma set_phase_unit_run (unit : string) (e : t) :
  set_phase_unit unit e =
    if decide (lower unit = "å") then (Ok tt, with__phase_unit (upper (lower unit)) e)
    else match units !! lower unit with
         | Some c => (Ok tt, with__phase_unit c e)
         | None => (Raise (ValueError (lower unit) (dom units)), e)
         end.
Proof.
  unfold set_phase_unit. destruct (decide (lower unit = "å")); [reflexivity |].
  destruct (decide (units !! lower unit = None)) as [HN | HS].
  - rewrite HN. reflexivity.
  - unfold bind, lift, getitem, modify.
    destruct (units !! lower unit); [reflexivity | contradiction].
Qed.

Lemma set_spatial_unit_run (unit : string) (e : t) :
  set_spatial_unit unit e =
    match units !! lower unit with
    | Some c => (Ok tt, with__spatial_unit c e)
    | None => (Raise (ValueError (lower unit) (dom units)), e)
    end.
Proof.
  unfold set_spatial_unit.
  destruct (decide (units !! lower unit = None)) as [HN | HS].
  - rewrite HN. reflexivity.
  - unfold bind, lift, getitem, modify.
    destruct (units !! lower unit); [reflexivity | contradiction].
Qed.

(** The target is looked up as it is given: a miss is a [KeyError]. *)
Lemma change_phase_unit_miss (to : string) (inplace : bool) (e : t) :
  units !! to = None ->
  change_phase_unit to inplace e = (Raise (KeyError to), e).
Proof.
  intros H. unfold change_phase_unit, bind, gets, lift, getitem.
  rewrite H. reflexivity.
Qed.

Lemma change_phase_unit_no_entry (to target : string) (inplace : bool) (e : t) :
  units !! to = Some target ->
  unit_changes !! join "_" [phase_unit e; target] = None ->
  change_phase_unit to inplace e =
    (Raise (KeyError (join "_" [phase_unit e; target])), e).
Proof.
  intros Ht Hf. unfold change_phase_unit, bind, gets, lift, getitem.
  rewrite Ht, Hf. reflexivity.
Qed.

Lemma change_phase_unit_factor_raises (to target : string) (inplace : bool)
    (e : t) (f : value -> result value) (ex : exn) :
  units !! to = Some target ->
  unit_changes !! join "_" [phase_unit e; target] = Some f ->
  f (wavelength e) = Raise ex ->
  change_phase_unit to inplace e = (Raise ex, e).
Proof.
  intros Ht Hf Hw. unfold change_phase_unit, bind, gets, lift, getitem.
  rewrite Ht, Hf, Hw. reflexivity.
Qed.

Lemma change_phase_unit_divides (to target : string) (inplace : bool)
    (e : t) (f : value -> result value) (fctr : value) :
  units !! to = Some target ->
  unit_changes !! join "_" [phase_unit e; target] = Some f ->
  f (wavelength e) = Ok fctr ->
  change_phase_unit to inplace e =
    match np.divide2 (phase e) fctr with
    | Raise ex => (Raise ex, e)
    | Ok new_phase =>
        if inplace then
          match set_phase_unit to (with_phase new_phase e) with
          | (Ok _, e') => (Ok Self, e')
          | (Raise ex, e') => (Raise ex, e')
          end
        else (Ok (Array new_phase), e)
    end.
Proof.
  intros Ht Hf Hw. unfold change_phase_unit, bind, gets, lift, getitem.
  rewrite Ht, Hf, Hw.
  destruct (np.divide2 (phase e) fctr) as [new_phase | ex]; [| reflexivity].
  destruct inplace; [| reflexivity].
  unfold modify, ret.
  destruct (set_phase_unit to (with_phase new_phase e)) as [[[] | ex] e'];
    reflexivity.
Qed.

Lemma change_spatial_unit_run (to : string) (inplace : bool) (e : t) :
  change_spatial_unit to inplace e =
    match new_axes to e with
    | Raise ex => (Raise ex, e)
    | Ok (new_ux, new_uy) =>
        if inplace then
          match set_spatial_unit to (with_y new_uy (with_x new_ux e)) with
          | (Ok _, e') => (Ok Self, e')
          | (Raise ex, e') => (Raise ex, e')
          end
        else (Ok (Axes new_ux new_uy), e)
    end.
Proof.
  unfold change_spatial_unit, new_axes.
  destruct (decide (lower to <> "px")) as [Hpx | Hpx].
  - unfold bind at 1. unfold bind at 1. unfold gets at 1.
    unfold bind at 1. unfold lift at 1.
    destruct (getitem units to) as [target | ex]; [| reflexivity].
    cbn [rbind]. unfold bind at 1. unfold lift at 1.
    destruct (getitem unit_changes _) as [f | ex]; [| reflexivity].
    cbn [rbind]. unfold bind at 1. unfold gets at 1.
    unfold bind at 1. unfold lift at 1.
    destruct (f (wavelength e)) as [fctr | ex]; [| reflexivity].
    cbn [rbind]. unfold bind at 1. unfold gets at 1.
    unfold bind at 1. unfold lift at 1.
    destruct (np.divide (x e) fctr) as [new_ux | ex]; [| reflexivity].
    cbn [rbind]. unfold bind at 1. unfold gets at 1.
    unfold bind at 1. unfold lift at 1.
    destruct (np.divide (y e) fctr) as [new_uy | ex]; [| reflexivity].
    cbn [rbind]. unfold ret at 1. cbn [fst snd].
    destruct inplace; [| reflexivity].
    unfold bind, modify, ret.
    destruct (set_spatial_unit to _) as [[[] | ex] e']; reflexivity.
  - unfold bind at 1. unfold bind at 1. unfold gets at 1. unfold ret at 1.
    cbn [fst snd].
    destruct inplace; [| reflexivity].
    unfold bind, modify, ret.
    destruct (set_spatial_unit to _) as [[[] | ex] e']; reflexivity.
Qed.

End Execution.

(** * The worked example of the spec *)

Section Example.

(** On an instance whose [phase_unit] property reads ['nm'], the conversion
    to waves divides the phase by the ['nm_λ'] entry at the stored
    wavelength. *)
Lemma reads_nm_to_waves (e : t) (w : Qc) :
  phase_unit e = "nm" -> wavelength e = PyFloat w -> 0 < w ->
  change_phase_unit "waves" false e
    = (Ok (Array (map (map (fun v => v / (Q2Qc 1e3 * w))) (phase e))), e).
Proof.
  intros Hu Hw Hpos.
  rewrite (change_phase_unit_divides "waves" "λ" false e
             (fun v => mul (PyFloat (Q2Qc 1e3)) v)
             (PyFloat (Q2Qc 1e3 * w))).
  - rewrite divide2_float; [reflexivity |].
    apply Qc_pos_nonzero, Qcmult_pos_pos; [reflexivity | exact Hpos].
  - reflexivity.
  - rewrite Hu. reflexivity.
  - rewrite Hw. reflexivity.
Qed.

(** C1 (the code at the failing input): the instance of the example is
    constructed with [phase_unit='nm'] and the default [spatial_unit='mm'].
    The constructor hands [phase_unit] to the base class as [zunit], and the
    [phase_unit] property reads [xyunit]: it reads ['mm'], the conversion to
    waves reads the ['mm_λ'] entry, and for every phase grid and every
    wavelength [w > 0] the phase is divided by [1e-3 * w], not by
    [1e3 * w].  For the phase [[1.0]] at 0.6328 the call returns
    [[1 / (1e-3 * 0.6328)]], which is not [[1 / (1e3 * 0.6328)]]. *)
Theorem C1_example_reads_the_spatial_unit :
  (forall (x0 y0 : list Qc) (p : list (list Qc)) (w : Qc),
     0 < w ->
     phase_unit (__init__ x0 y0 p "x" "y" "z" "mm" "nm" (PyFloat w)) = "mm" /\
     factor "mm" "λ" (PyFloat w) = Some (Ok (PyFloat (Q2Qc 1e-3 * w))) /\
     change_phase_unit "waves" false
       (__init__ x0 y0 p "x" "y" "z" "mm" "nm" (PyFloat w))
       = (Ok (Array (map (map (fun v => v / (Q2Qc 1e-3 * w))) p)),
          __init__ x0 y0 p "x" "y" "z" "mm" "nm" (PyFloat w))) /\
  change_phase_unit "waves" false
    (__init__ [0] [0] [[1]] "x" "y" "z" "mm" "nm" (PyFloat (Q2Qc 0.6328)))
    = (Ok (Array [[1 / (Q2Qc 1e-3 * Q2Qc 0.6328)]]),
       __init__ [0] [0] [[1]] "x" "y" "z" "mm" "nm" (PyFloat (Q2Qc 0.6328))) /\
  [[1 / (Q2Qc 1e-3 * Q2Qc 0.6328)]] <> [[1 / (Q2Qc 1e3 * Q2Qc 0.6328)]].
Proof.
  assert (Hgen : forall (x0 y0 : list Qc) (p : list (list Qc)) (w : Qc),
            0 < w ->
            change_phase_unit "waves" false
              (__init__ x0 y0 p "x" "y" "z" "mm" "nm" (PyFloat w))
            = (Ok (Array (map (map (fun v => v / (Q2Qc 1e-3 * w))) p)),
               __init__ x0 y0 p "x" "y" "z" "mm" "nm" (PyFloat w))).
  { intros x0 y0 p w Hpos.
    rewrite (change_phase_unit_divides "waves" "λ" false _
               (fun v => mul (PyFloat (Q2Qc 1e-3)) v)
               (PyFloat (Q2Qc 1e-3 * w))); try reflexivity.
    cbn [phase __init__ BasicData__init__ with_wavelength].
    rewrite divide2_float; [reflexivity |].
    apply Qc_pos_nonzero, Qcmult_pos_pos; [reflexivity | exact Hpos]. }
  split.
  { intros x0 y0 p w Hpos. split; [reflexivity |]. split; [reflexivity |].
    by apply Hgen. }
  split; [apply (Hgen [0] [0] [[1]] (Q2Qc 0.6328)); reflexivity |].
  compute_done.
Qed.

Lemma C1_example_reads_the_spatial_unit_witness :
  change_phase_unit "waves" false
    (__init__ [0; 1] [0] [[Q2Qc 3; Q2Qc (-2)]] "x" "y" "z" "mm" "nm"
       (PyFloat (Q2Qc 0.5)))
  = (Ok (Array [[Q2Qc 3 / (Q2Qc 1e-3 * Q2Qc 0.5);
                 Q2Qc (-2) / (Q2Qc 1e-3 * Q2Qc 0.5)]]),
     __init__ [0; 1] [0] [[Q2Qc 3; Q2Qc (-2)]] "x" "y" "z" "mm" "nm"
       (PyFloat (Q2Qc 0.5))).
Proof.
  destruct C1_example_reads_the_spatial_unit as (H & _).
  destruct (H [0; 1] [0] [[Q2Qc 3; Q2Qc (-2)]] (Q2Qc 0.5)) as (_ & _ & Hrun);
    [reflexivity |].
  exact Hrun.
Defined.

End Example.

(** * Diameters *)

Section Diameters.

(** C9: on an instance with non-empty axes, [diameter_x] is [x[-1] - x[0]],
    [diameter_y] is [y[-1] - x[0]] (the first sample of the x axis),
    [diameter] is the larger of the two and [semidiameter] is half of it. *)
Theorem C9_diameters (e : t) :
  x e <> [] -> y e <> [] ->
  exists x_first x_last y_last : Qc,
    head (x e) = Some x_first /\ last (x e) = Some x_last /\
    last (y e) = Some y_last /\
    diameter_x e = Ok (x_last - x_first) /\
    diameter_y e = Ok (y_last - x_first) /\
    diameter e = Ok (max2 (x_last - x_first) (y_last - x_first)) /\
    semidiameter e = Ok (max2 (x_last - x_first) (y_last - x_first) / Q2Qc 2) /\
    x_last - x_first <= max2 (x_last - x_first) (y_last - x_first) /\
    y_last - x_first <= max2 (x_last - x_first) (y_last - x_first) /\
    (max2 (x_last - x_first) (y_last - x_first) = x_last - x_first \/
     max2 (x_last - x_first) (y_last - x_first) = y_last - x_first).
Proof.
  intros Hx Hy.
  destruct (head (x e)) as [xf |] eqn:Hxf;
    [| apply head_None in Hxf; contradiction].
  destruct (last (x e)) as [xl |] eqn:Hxl;
    [| apply last_None in Hxl; contradiction].
  destruct (last (y e)) as [yl |] eqn:Hyl;
    [| apply last_None in Hyl; contradiction].
  exists xf, xl, yl.
  assert (Hdx : diameter_x e = Ok (xl - xf)).
  { unfold diameter_x, final, first. rewrite Hxl, Hxf. reflexivity. }
  assert (Hdy : diameter_y e = Ok (yl - xf)).
  { unfold diameter_y, final, first. rewrite Hyl, Hxf. reflexivity. }
  assert (Hd : diameter e = Ok (max2 (xl - xf) (yl - xf))).
  { unfold diameter. rewrite Hdx, Hdy. reflexivity. }
  assert (Hs : semidiameter e = Ok (max2 (xl - xf) (yl - xf) / Q2Qc 2)).
  { unfold semidiameter. rewrite Hd. reflexivity. }
  pose proof (max2_upper (xl - xf) (yl - xf)) as [Hle1 Hle2].
  pose proof (max2_either (xl - xf) (yl - xf)) as Hor.
  tauto.
Qed.

Lemma C9_diameters_witness :
  diameter_x grid_mm = Ok (1 - Q2Qc (-1)) /\
  diameter_y grid_mm = Ok (Q2Qc 2 - Q2Qc (-1)) /\
  semidiameter grid_mm = Ok (Q2Qc 3 / Q2Qc 2).
Proof.
  destruct (C9_diameters grid_mm) as
    (xf & xl & yl & Hxf & Hxl & Hyl & Hdx & Hdy & _ & Hs & _);
    [discriminate | discriminate |].
  injection Hxf as <-. injection Hxl as <-. injection Hyl as <-.
  split; [exact Hdx |]. split; [exact Hdy |].
  rewrite Hs. f_equal; by apply Qc_is_canon.
Defined.

End Diameters.

(** * The table of conversion factors *)

(** Split [H : c ∈ canonical_codes] into its seven cases. *)
Ltac case_code H :=
  unfold canonical_codes in H;
  repeat (apply elem_of_cons in H as [-> | H]);
  try (by apply elem_of_nil in H).

(** Decide whether the entry of a literal key exists. *)
Ltac entry_or_not :=
  match goal with
  | |- is_Some (unit_changes !! ?k) <-> _ =>
      first
        [ assert (is_Some (unit_changes !! k)) by (eexists; reflexivity);
          split; [intros _; first [left; done | right; done] | done]
        | let HN := fresh in
          assert (HN : unit_changes !! k = None) by reflexivity;
          rewrite HN; split;
          [ intros [? ?]; discriminate
          | intros [? | ?]; [contradiction | discriminate] ] ]
  end.

Ltac reciprocal_case :=
  unfold reciprocal_at, factor; cbn [join String.concat String.append];
  repeat uc_lookup;
  rewrite ?truediv_float by assumption; cbn [mul];
  do 2 eexists; split; [reflexivity |]; split; [reflexivity |]; qc_field.

Section Table.

Lemma unit_changes_size : size unit_changes = 43%nat.
Proof. reflexivity. Qed.

Lemma unit_changes_entries (a b : string) :
  a ∈ canonical_codes -> b ∈ canonical_codes ->
  (is_Some (unit_changes !! join "_" [a; b]) <-> (b <> "px" \/ a = "px")).
Proof.
  intros Ha Hb. case_code Ha; case_code Hb;
    cbn [join String.concat String.append]; entry_or_not.
Qed.

Lemma unit_changes_keys (k : string) :
  is_Some (unit_changes !! k) ->
  exists a b, a ∈ canonical_codes /\ b ∈ canonical_codes /\ k = join "_" [a; b].
Proof.
  intros [f Hf].
  apply elem_of_list_to_map in Hf; [| apply unit_changes_keys_NoDup].
  apply (list_elem_of_fmap_2 fst) in Hf. cbn [fst] in Hf.
  assert (Hin : k ∈ canonical_codes ≫= (fun a =>
                    canonical_codes ≫= (fun b => [join "_" [a; b]]))).
  { revert k Hf. apply Forall_forall. compute_done. }
  apply list_elem_of_bind in Hin as (a & Hin & Ha).
  apply list_elem_of_bind in Hin as (b & Hin & Hb).
  apply list_elem_of_singleton in Hin.
  exists a, b. auto.
Qed.

Lemma reciprocal_pairs (a b : string) (w : Qc) :
  a ∈ canonical_codes -> b ∈ canonical_codes ->
  (a = "px" <-> b = "px") ->
  ~ (a = "μm" /\ b = "λ") -> ~ (a = "λ" /\ b = "μm") ->
  0 < w ->
  reciprocal_at a b w.
Proof.
  intros Ha Hb Hpx Hml Hlm Hw. apply Qc_pos_nonzero in Hw.
  case_code Ha; case_code Hb;
    try (exfalso; apply Hml; split; reflexivity);
    try (exfalso; apply Hlm; split; reflexivity);
    try (exfalso; destruct Hpx as [H1 H2];
         first [specialize (H1 eq_refl) | specialize (H2 eq_refl)];
         discriminate);
    reciprocal_case.
Qed.

End Table.

Section TableClaim.

(** C2 (as amended): [unit_changes] has 43 entries, each keyed by a pair of
    canonical codes: the pair (A, B) has an entry exactly when B is not the
    pixel or A is the pixel.  For every pair with both directions in the
    table, the pair of micrometer and waves apart, and every wavelength
    [w > 0], the factor from A to B is the reciprocal of the factor from B to
    A. *)
Theorem C2_table_and_reciprocals :
  size unit_changes = 43%nat /\
  (forall k, is_Some (unit_changes !! k) ->
     exists a b, a ∈ canonical_codes /\ b ∈ canonical_codes /\
                 k = join "_" [a; b]) /\
  (forall a b, a ∈ canonical_codes -> b ∈ canonical_codes ->
     (is_Some (unit_changes !! join "_" [a; b]) <-> (b <> "px" \/ a = "px"))) /\
  (forall a b (w : Qc), a ∈ canonical_codes -> b ∈ canonical_codes ->
     (a = "px" <-> b = "px") ->
     ~ (a = "μm" /\ b = "λ") -> ~ (a = "λ" /\ b = "μm") ->
     0 < w ->
     reciprocal_at a b w).
Proof.
  split; [exact unit_changes_size |].
  split; [exact unit_changes_keys |].
  split; [exact unit_changes_entries |].
  exact reciprocal_pairs.
Qed.

Lemma C2_table_and_reciprocals_witness :
  is_Some (unit_changes !! join "_" ["nm"; "λ"]) /\
  reciprocal_at "nm" "λ" (Q2Qc 0.6328).
Proof.
  destruct C2_table_and_reciprocals as (_ & _ & Hentry & Hrec).
  split.
  - apply Hentry; [compute_done | compute_done | left; discriminate].
  - apply Hrec; compute_done.
Defined.

(** The claim as stated fails twice: no pair (A, px) with A not the pixel
    has an entry, so the table has 43 entries and not 49; and at wavelength
    2 the factors between micrometer and waves are both 2. *)
Lemma C2_counterexample :
  unit_changes !! join "_" ["m"; "px"] = None /\
  size unit_changes <> 49%nat /\
  factor "μm" "λ" (PyFloat (Q2Qc 2)) = Some (Ok (PyFloat (1 * Q2Qc 2))) /\
  factor "λ" "μm" (PyFloat (Q2Qc 2)) = Some (Ok (PyFloat (Q2Qc 2))) /\
  ~ reciprocal_at "μm" "λ" (Q2Qc 2).
Proof.
  split; [reflexivity |]. split; [rewrite unit_changes_size; discriminate |].
  split; [reflexivity |]. split; [reflexivity |].
  intros (fab & fba & Hab & Hba & Heq).
  assert (H1 : factor "μm" "λ" (PyFloat (Q2Qc 2))
               = Some (Ok (PyFloat (1 * Q2Qc 2)))) by reflexivity.
  assert (H2 : factor "λ" "μm" (PyFloat (Q2Qc 2))
               = Some (Ok (PyFloat (Q2Qc 2)))) by reflexivity.
  rewrite H1 in Hab. rewrite H2 in Hba.
  injection Hab as <-. injection Hba as <-.
  apply (f_equal this) in Heq. vm_compute in Heq. discriminate Heq.
Qed.

End TableClaim.

(** * Round trips *)

Section RoundTrip.

(** C3 (the code at a failing input): one sample 1.0 read in meters is
    converted in place to millimeters and back to meters.  The first call
    stores ['mm'] in [_phase_unit], the [phase_unit] property still reads
    ['m'], the second call divides by the ['m_m'] entry, and the phase ends
    as 1000.  With a second instance for the way back the factors of
    ['μm_λ'] and ['λ_μm'] are both the wavelength: 1.0 micrometer at
    wavelength 0.5 becomes 2 waves, and 2 waves become 4 micrometers. *)
Theorem C3_round_trip_fails :
  (exists e1 e2 : t,
     phase_unit (one_sample "m" 1 (PyFloat (Q2Qc 0.5))) = "m" /\
     change_phase_unit "mm" true (one_sample "m" 1 (PyFloat (Q2Qc 0.5)))
       = (Ok Self, e1) /\
     phase e1 = [[Q2Qc 1000]] /\ _phase_unit e1 = Some "mm" /\
     phase_unit e1 = "m" /\
     change_phase_unit "m" true e1 = (Ok Self, e2) /\
     phase e2 = [[Q2Qc 1000]]) /\
  fst (change_phase_unit "λ" false (one_sample "μm" 1 (PyFloat (Q2Qc 0.5))))
    = Ok (Array [[Q2Qc 2]]) /\
  fst (change_phase_unit "μm" false (one_sample "λ" (Q2Qc 2) (PyFloat (Q2Qc 0.5))))
    = Ok (Array [[Q2Qc 4]]).
Proof.
  split; [| split; compute_done].
  exists (with__phase_unit "mm"
            (with_phase [[Q2Qc 1000]] (one_sample "m" 1 (PyFloat (Q2Qc 0.5))))).
  exists (with__phase_unit "m"
            (with_phase [[Q2Qc 1000]] (one_sample "m" 1 (PyFloat (Q2Qc 0.5))))).
  repeat split; compute_done.
Qed.

End RoundTrip.

(** * Conversion of the axes to pixels *)

Section Pixels.

Lemma arange_length (n : nat) : length (np.arange n) = n.
Proof. unfold np.arange. rewrite length_map, length_seq. reflexivity. Qed.

Lemma arange_lookup (n i : nat) :
  (i < n)%nat -> np.arange n !! i = Some (Q2Qc (inject_Z (Z.of_nat i))).
Proof.
  intros H. unfold np.arange.
  change (map ?f ?l) with (f <$> l).
  rewrite list_lookup_fmap, lookup_seq_lt by exact H. reflexivity.
Qed.

Lemma new_axes_px (to : string) (e : t) :
  lower to = "px" ->
  new_axes to e = Ok (np.arange (snd (shape e)), np.arange (fst (shape e))).
Proof.
  intros H. unfold new_axes.
  destruct (decide (lower to <> "px")); [contradiction | reflexivity].
Qed.

(** For every target whose lower-casing is the literal ['px'],
    [change_spatial_unit] looks up no factor and regenerates [x] as
    [0, 1, ..., sx-1] and [y] as [0, 1, ..., sy-1], where (sy, sx) is the
    shape of the grid, whatever the spatial unit and the axes were; in place
    it stores them with ['px'] in [_spatial_unit] and returns [self]. *)
Lemma pixel_literal_regenerates_axes (to : string) (inplace : bool) (e : t) :
  lower to = "px" ->
  shape e = (length (phase e),
             match phase e with [] => 0%nat | r :: _ => length r end) /\
  change_spatial_unit to inplace e =
    (if inplace
     then (Ok Self,
           with__spatial_unit "px"
             (with_y (np.arange (fst (shape e)))
                (with_x (np.arange (snd (shape e))) e)))
     else (Ok (Axes (np.arange (snd (shape e))) (np.arange (fst (shape e)))), e)) /\
  (forall n, length (np.arange n) = n) /\
  (forall n i, (i < n)%nat ->
     np.arange n !! i = Some (Q2Qc (inject_Z (Z.of_nat i)))).
Proof.
  intros Hpx. split; [reflexivity |].
  split; [| split; [exact arange_length | exact arange_lookup]].
  rewrite change_spatial_unit_run, (new_axes_px to e Hpx).
  destruct inplace; [| reflexivity].
  rewrite set_spatial_unit_run, Hpx. reflexivity.
Qed.

Lemma pixel_literal_any_case :
  change_spatial_unit "PX" false grid_mm
    = (Ok (Axes [0; 1; Q2Qc 2] [0; 1]), grid_mm).
Proof.
  destruct (pixel_literal_regenerates_axes "PX" false grid_mm) as (_ & H & _);
    [reflexivity |].
  rewrite H. reflexivity.
Qed.

(** C4 (the code at failing inputs): the alias ['pixel'] is a key of
    [units] with the canonical code ['px'], but its lower-casing is not the
    literal ['px'], so the factor is looked up.  On millimeter axes the key
    ['mm_px'] is missing and the call raises [KeyError]; on pixel axes the
    ['px_px'] entry divides the axes by 1 and they are returned as they
    were, not as the index sequence. *)
Theorem C4_pixel_alias_not_regenerated :
  units !! "pixel" = Some "px" /\
  lower "pixel" <> "px" /\
  change_spatial_unit "pixel" false grid_mm
    = (Raise (KeyError "mm_px"), grid_mm) /\
  change_spatial_unit "pixel" true grid_mm
    = (Raise (KeyError "mm_px"), grid_mm) /\
  x shifted_pixels = [Q2Qc 5; Q2Qc 7] /\
  shape shifted_pixels = (1%nat, 2%nat) /\
  change_spatial_unit "pixel" false shifted_pixels
    = (Ok (Axes [Q2Qc 5; Q2Qc 7] [Q2Qc 3]), shifted_pixels) /\
  np.arange 2 <> [Q2Qc 5; Q2Qc 7].
Proof. repeat split; compute_done. Qed.

End Pixels.

(** * Resolution of unit names *)

Section Names.

(** A key of [units] is its own lower-casing, but for the capital A with
    ring, whose lower-casing is not a key. *)
Lemma units_key_lower (a c : string) :
  units !! a = Some c ->
  (lower a = "å" /\ a = "Å" /\ c = "Å") \/
  (lower a = a /\ lower a <> "å" /\ a <> "Å").
Proof.
  intros H. apply units_lookup_items in H. unfold units_items in H.
  repeat (apply elem_of_cons in H as [[= -> ->] | H]; [compute_done |]).
  by apply elem_of_nil in H.
Qed.

Lemma units_no_small_a_ring : units !! "å" = None.
Proof. reflexivity. Qed.

Lemma units_dom_keys : dom units = list_to_set (units_items.*1).
Proof. unfold units. apply dom_list_to_map_L. Qed.

Lemma set_phase_unit_known (u c : string) (e : t) :
  units !! lower u = Some c ->
  set_phase_unit u e = (Ok tt, with__phase_unit c e).
Proof.
  intros H. rewrite set_phase_unit_run.
  destruct (decide (lower u = "å")) as [Ha | Ha].
  - rewrite Ha, units_no_small_a_ring in H. discriminate H.
  - rewrite H. reflexivity.
Qed.

Lemma set_phase_unit_a_ring (u : string) (e : t) :
  lower u = "å" ->
  set_phase_unit u e = (Ok tt, with__phase_unit "Å" e).
Proof.
  intros H. rewrite set_phase_unit_run.
  destruct (decide (lower u = "å")); [| contradiction].
  rewrite H. reflexivity.
Qed.

Lemma set_phase_unit_unknown (u : string) (e : t) :
  units !! lower u = None -> lower u <> "å" ->
  set_phase_unit u e = (Raise (ValueError (lower u) (dom units)), e).
Proof.
  intros H Ha. rewrite set_phase_unit_run.
  destruct (decide (lower u = "å")); [contradiction |].
  rewrite H. reflexivity.
Qed.

Lemma set_spatial_unit_known (u c : string) (e : t) :
  units !! lower u = Some c ->
  set_spatial_unit u e = (Ok tt, with__spatial_unit c e).
Proof. intros H. rewrite set_spatial_unit_run, H. reflexivity. Qed.

Lemma set_spatial_unit_unknown (u : string) (e : t) :
  units !! lower u = None ->
  set_spatial_unit u e = (Raise (ValueError (lower u) (dom units)), e).
Proof. intros H. rewrite set_spatial_unit_run, H. reflexivity. Qed.

Lemma set_phase_unit_alias (a c : string) (e : t) :
  units !! a = Some c ->
  set_phase_unit a e = (Ok tt, with__phase_unit c e).
Proof.
  intros H. destruct (units_key_lower a c H) as [(Hl & _ & ->) | (Hl & _ & _)].
  - apply set_phase_unit_a_ring, Hl.
  - apply set_phase_unit_known. rewrite Hl. exact H.
Qed.

Lemma set_spatial_unit_alias (a c : string) (e : t) :
  units !! a = Some c -> a <> "Å" ->
  set_spatial_unit a e = (Ok tt, with__spatial_unit c e).
Proof.
  intros H Ha. destruct (units_key_lower a c H) as [(_ & -> & _) | (Hl & _ & _)].
  - contradiction.
  - apply set_spatial_unit_known. rewrite Hl. exact H.
Qed.

Lemma change_spatial_unit_miss (to : string) (inplace : bool) (e : t) :
  units !! to = None -> lower to <> "px" ->
  change_spatial_unit to inplace e = (Raise (KeyError to), e).
Proof.
  intros H Hpx. rewrite change_spatial_unit_run. unfold new_axes, getitem.
  destruct (decide (lower to <> "px")); [| contradiction].
  rewrite H. reflexivity.
Qed.

(** C5 (as amended): the two setters resolve a name by its lower-casing.
    A name whose lower-casing is a key of [units] is stored as that key's
    canonical code, and so is every key of [units] itself (in the spatial
    setter: every key but the capital A with ring); the phase setter stores
    the canonical angstrom code for a name whose lower-casing is the small a
    with ring; a name whose lower-casing is neither raises the invalid-unit
    error with the lower-cased name and the full set of keys of [units], and
    stores nothing.  The target of [change_phase_unit] and
    [change_spatial_unit] is looked up as it is given: a target that is not
    a key of [units] (and, for the spatial conversion, does not lower-case to
    ['px']) raises [KeyError] with the target and changes nothing. *)
Theorem C5_unit_name_resolution (u : string) (e : t) :
  (forall c, units !! lower u = Some c ->
     set_phase_unit u e = (Ok tt, with__phase_unit c e) /\
     set_spatial_unit u e = (Ok tt, with__spatial_unit c e)) /\
  (lower u = "å" -> set_phase_unit u e = (Ok tt, with__phase_unit "Å" e)) /\
  (forall c, units !! u = Some c ->
     set_phase_unit u e = (Ok tt, with__phase_unit c e) /\
     (u <> "Å" -> set_spatial_unit u e = (Ok tt, with__spatial_unit c e))) /\
  (units !! lower u = None -> lower u <> "å" ->
     set_phase_unit u e = (Raise (ValueError (lower u) (dom units)), e) /\
     set_spatial_unit u e = (Raise (ValueError (lower u) (dom units)), e)) /\
  dom units = list_to_set (units_items.*1) /\
  (forall inplace, units !! u = None ->
     change_phase_unit u inplace e = (Raise (KeyError u), e) /\
     (lower u <> "px" ->
      change_spatial_unit u inplace e = (Raise (KeyError u), e))).
Proof.
  split.
  { intros c H. split; [by apply set_phase_unit_known
                       | by apply set_spatial_unit_known]. }
  split; [apply set_phase_unit_a_ring |].
  split.
  { intros c H. split; [by apply set_phase_unit_alias |].
    intros Ha. by apply set_spatial_unit_alias. }
  split.
  { intros H Ha. split; [by apply set_phase_unit_unknown
                        | by apply set_spatial_unit_unknown]. }
  split; [exact units_dom_keys |].
  intros inplace H. split; [by apply change_phase_unit_miss |].
  intros Hpx. by apply change_spatial_unit_miss.
Qed.

Lemma C5_unit_name_resolution_witness :
  set_phase_unit "NanoMeter" hene_nm = (Ok tt, with__phase_unit "nm" hene_nm) /\
  set_spatial_unit "MICRON" hene_nm = (Ok tt, with__spatial_unit "μm" hene_nm) /\
  set_phase_unit "Å" hene_nm = (Ok tt, with__phase_unit "Å" hene_nm) /\
  set_phase_unit "furlong" hene_nm
    = (Raise (ValueError "furlong" (dom units)), hene_nm) /\
  change_spatial_unit "furlong" true hene_nm
    = (Raise (KeyError "furlong"), hene_nm).
Proof.
  split.
  { destruct (C5_unit_name_resolution "NanoMeter" hene_nm) as (H & _).
    apply (H "nm"). reflexivity. }
  split.
  { destruct (C5_unit_name_resolution "MICRON" hene_nm) as (H & _).
    apply (H "μm"). reflexivity. }
  split.
  { destruct (C5_unit_name_resolution "Å" hene_nm) as (_ & H & _).
    apply H. reflexivity. }
  split.
  { destruct (C5_unit_name_resolution "furlong" hene_nm) as (_ & _ & _ & H & _).
    apply H; [reflexivity | discriminate]. }
  destruct (C5_unit_name_resolution "furlong" hene_nm) as (_ & _ & _ & _ & _ & H).
  apply (H true); [reflexivity | discriminate].
Defined.

(** The target of a conversion is not lower-cased, and a miss is a
    [KeyError], not the invalid-unit error: ['NM'] is refused although its
    lower-casing is a key, and ['furlong'] is refused without the list of
    valid names. *)
Lemma C5_counterexample :
  units !! lower "NM" = Some "nm" /\
  change_phase_unit "NM" false hene_nm = (Raise (KeyError "NM"), hene_nm) /\
  change_phase_unit "furlong" true hene_nm
    = (Raise (KeyError "furlong"), hene_nm) /\
  change_spatial_unit "furlong" true hene_nm
    = (Raise (KeyError "furlong"), hene_nm) /\
  KeyError "furlong" <> ValueError (lower "furlong") (dom units).
Proof. repeat split; compute_done. Qed.

End Names.

(** * Conversions that involve the wavelength *)

Ltac case_list H :=
  repeat (apply elem_of_cons in H as [-> | H]);
  try (by apply elem_of_nil in H).

Section Wavelength.

Lemma factor_to_waves_needs_wavelength (a : string) :
  a ∈ metric_codes -> factor a "λ" PyNone = Some (Raise TypeError).
Proof. intros H. unfold metric_codes in H. case_list H; reflexivity. Qed.

Lemma factor_from_waves_needs_wavelength (b : string) :
  b ∈ metric_codes_but_micrometer ->
  factor "λ" b PyNone = Some (Raise TypeError).
Proof.
  intros H. unfold metric_codes_but_micrometer in H. case_list H; reflexivity.
Qed.

Lemma factor_entry (a b : string) (w : value) (r : result value) :
  factor a b w = Some r ->
  exists f, unit_changes !! join "_" [a; b] = Some f /\ f w = r.
Proof.
  unfold factor. destruct (unit_changes !! join "_" [a; b]) as [f |];
    [| discriminate].
  intros [= <-]. exists f. auto.
Qed.

Lemma change_phase_unit_factor_error (to target : string) (inplace : bool)
    (e : t) (ex : exn) :
  units !! to = Some target ->
  factor (phase_unit e) target (wavelength e) = Some (Raise ex) ->
  change_phase_unit to inplace e = (Raise ex, e).
Proof.
  intros Ht Hf. apply factor_entry in Hf as (f & Hf & Hr).
  exact (change_phase_unit_factor_raises to target inplace e f ex Ht Hf Hr).
Qed.

Lemma change_phase_unit_copy (to target : string) (e : t) (q : Qc) :
  units !! to = Some target ->
  factor (phase_unit e) target (wavelength e) = Some (Ok (PyFloat q)) ->
  q <> 0 ->
  change_phase_unit to false e
    = (Ok (Array (map (map (fun v => v / q)) (phase e))), e).
Proof.
  intros Ht Hf Hq. apply factor_entry in Hf as (f & Hf & Hr).
  rewrite (change_phase_unit_divides to target false e f (PyFloat q) Ht Hf Hr).
  rewrite divide2_float by exact Hq. reflexivity.
Qed.

Lemma factor_ignores_wavelength (a b : string) (w w' : value) :
  a ∈ canonical_codes -> b ∈ canonical_codes ->
  a <> "λ" -> b <> "λ" ->
  factor a b w = factor a b w'.
Proof.
  intros Ha Hb Hna Hnb.
  case_code Ha; case_code Hb; try contradiction; reflexivity.
Qed.

(** C6 (as amended): with no wavelength, converting the phase from a metric
    unit to waves, or from waves to a metric unit other than the micrometer,
    fails with the [TypeError] that the factor evaluation raises, and the
    instance is unchanged; the identity on waves and the conversion from
    pixels to waves have the constant factor 1 and succeed without a
    wavelength.  Entries that do not involve waves ignore the wavelength,
    and with a wavelength [w > 0] the conversion from micrometer to waves
    divides the phase by [w]. *)
Theorem C6_waves_and_wavelength (to target : string) (inplace : bool) (e : t) :
  units !! to = Some target ->
  (wavelength e = PyNone -> phase_unit e ∈ metric_codes -> target = "λ" ->
     factor (phase_unit e) target (wavelength e) = Some (Raise TypeError) /\
     change_phase_unit to inplace e = (Raise TypeError, e)) /\
  (wavelength e = PyNone -> phase_unit e = "λ" ->
   target ∈ metric_codes_but_micrometer ->
     factor (phase_unit e) target (wavelength e) = Some (Raise TypeError) /\
     change_phase_unit to inplace e = (Raise TypeError, e)) /\
  (wavelength e = PyNone -> phase_unit e = "λ" \/ phase_unit e = "px" ->
   target = "λ" ->
     factor (phase_unit e) target (wavelength e) = Some (Ok (PyFloat 1)) /\
     change_phase_unit to false e
       = (Ok (Array (map (map (fun v => v / 1)) (phase e))), e)) /\
  (forall a b w w', a ∈ canonical_codes -> b ∈ canonical_codes ->
     a <> "λ" -> b <> "λ" -> factor a b w = factor a b w') /\
  (forall w : Qc, wavelength e = PyFloat w -> 0 < w ->
   phase_unit e = "μm" -> target = "λ" ->
     change_phase_unit to false e
       = (Ok (Array (map (map (fun v => v / w)) (phase e))), e)).
Proof.
  intros Ht. split.
  { intros Hw Hu ->.
    assert (Hf : factor (phase_unit e) "λ" (wavelength e) = Some (Raise TypeError)).
    { rewrite Hw. apply factor_to_waves_needs_wavelength, Hu. }
    split; [exact Hf |].
    exact (change_phase_unit_factor_error to "λ" inplace e TypeError Ht Hf). }
  split.
  { intros Hw Hu Hb.
    assert (Hf : factor (phase_unit e) target (wavelength e) = Some (Raise TypeError)).
    { rewrite Hw, Hu. apply factor_from_waves_needs_wavelength, Hb. }
    split; [exact Hf |].
    exact (change_phase_unit_factor_error to target inplace e TypeError Ht Hf). }
  split.
  { intros Hw Hu ->.
    assert (Hf : factor (phase_unit e) "λ" (wavelength e) = Some (Ok (PyFloat 1))).
    { rewrite Hw. destruct Hu as [-> | ->]; reflexivity. }
    split; [exact Hf |].
    apply (change_phase_unit_copy to "λ" e 1 Ht Hf). discriminate. }
  split; [exact factor_ignores_wavelength |].
  intros w Hw Hpos Hu ->.
  assert (Hf : factor (phase_unit e) "λ" (wavelength e) = Some (Ok (PyFloat w))).
  { rewrite Hw, Hu. unfold factor. cbn [join String.concat String.append].
    uc_lookup. cbn [mul]. rewrite Qcmult_1_l. reflexivity. }
  apply (change_phase_unit_copy to "λ" e w Ht Hf).
  apply Qc_pos_nonzero, Hpos.
Qed.

Lemma C6_waves_and_wavelength_witness :
  change_phase_unit "waves" true (one_sample "nm" 1 PyNone)
    = (Raise TypeError, one_sample "nm" 1 PyNone) /\
  change_phase_unit "mm" true (one_sample "λ" 1 PyNone)
    = (Raise TypeError, one_sample "λ" 1 PyNone) /\
  change_phase_unit "lambda" false (one_sample "px" 1 PyNone)
    = (Ok (Array [[1 / 1]]), one_sample "px" 1 PyNone) /\
  change_phase_unit "waves" false (one_sample "μm" 1 (PyFloat (Q2Qc 0.5)))
    = (Ok (Array [[1 / Q2Qc 0.5]]), one_sample "μm" 1 (PyFloat (Q2Qc 0.5))).
Proof.
  split.
  { destruct (C6_waves_and_wavelength "waves" "λ" true (one_sample "nm" 1 PyNone))
      as (H & _); [reflexivity |].
    apply H; [reflexivity | compute_done | reflexivity]. }
  split.
  { destruct (C6_waves_and_wavelength "mm" "mm" true (one_sample "λ" 1 PyNone))
      as (_ & H & _); [reflexivity |].
    apply H; [reflexivity | reflexivity | compute_done]. }
  split.
  { destruct (C6_waves_and_wavelength "lambda" "λ" false (one_sample "px" 1 PyNone))
      as (_ & _ & H & _); [reflexivity |].
    apply H; [reflexivity | right; reflexivity | reflexivity]. }
  destruct (C6_waves_and_wavelength "waves" "λ" false
              (one_sample "μm" 1 (PyFloat (Q2Qc 0.5))))
    as (_ & _ & _ & _ & H); [reflexivity |].
  apply (H (Q2Qc 0.5)); reflexivity.
Defined.

(** Without a wavelength the identity on waves and the conversion from
    pixels to waves succeed, and from waves to micrometer the factor
    evaluation returns the missing wavelength itself: the error is raised
    by the division of the phase, one step later. *)
Lemma C6_counterexample :
  wavelength (one_sample "λ" 1 PyNone) = PyNone /\
  phase_unit (one_sample "λ" 1 PyNone) = "λ" /\
  change_phase_unit "waves" false (one_sample "λ" 1 PyNone)
    = (Ok (Array [[1 / 1]]), one_sample "λ" 1 PyNone) /\
  change_phase_unit "waves" false (one_sample "px" 1 PyNone)
    = (Ok (Array [[1 / 1]]), one_sample "px" 1 PyNone) /\
  factor "λ" "μm" PyNone = Some (Ok PyNone) /\
  np.divide2 [[1]] PyNone = Raise TypeError.
Proof. repeat split; compute_done. Qed.

End Wavelength.

(** * What a conversion changes *)

Section Frame.

Lemma change_phase_unit_run (to : string) (inplace : bool) (e : t) :
  change_phase_unit to inplace e =
    match new_phase to e with
    | Raise ex => (Raise ex, e)
    | Ok p =>
        if inplace then
          match set_phase_unit to (with_phase p e) with
          | (Ok _, e') => (Ok Self, e')
          | (Raise ex, e') => (Raise ex, e')
          end
        else (Ok (Array p), e)
    end.
Proof.
  unfold new_phase, getitem.
  destruct (units !! to) as [target |] eqn:Ht;
    [| rewrite change_phase_unit_miss by exact Ht; reflexivity].
  cbn [rbind].
  destruct (unit_changes !! join "_" [phase_unit e; target]) as [f |] eqn:Hf;
    [| rewrite (change_phase_unit_no_entry to target) by assumption; reflexivity].
  cbn [rbind].
  destruct (f (wavelength e)) as [fctr | ex] eqn:Hw;
    [| rewrite (change_phase_unit_factor_raises to target inplace e f ex)
         by assumption; reflexivity].
  cbn [rbind].
  exact (change_phase_unit_divides to target inplace e f fctr Ht Hf Hw).
Qed.

Lemma new_phase_target (to : string) (e : t) (p : list (list Qc)) :
  new_phase to e = Ok p -> exists target, units !! to = Some target.
Proof.
  unfold new_phase, getitem. destruct (units !! to) as [target |];
    [eauto | discriminate].
Qed.

Lemma change_phase_unit_in_place (to : string) (e e' : t) (r : returned) :
  change_phase_unit to true e = (Ok r, e') ->
  r = Self /\
  exists p c, new_phase to e = Ok p /\ units !! to = Some c /\
              e' = with__phase_unit c (with_phase p e).
Proof.
  rewrite change_phase_unit_run.
  destruct (new_phase to e) as [p | ex] eqn:Hp; [| discriminate].
  destruct (new_phase_target to e p Hp) as [c Hc].
  rewrite (set_phase_unit_alias to c _ Hc).
  intros [= <- <-]. split; [reflexivity |]. exists p, c. auto.
Qed.

Lemma change_phase_unit_copy_frame (to : string) (e e' : t) (out : result returned) :
  change_phase_unit to false e = (out, e') ->
  e' = e /\ forall r, out = Ok r -> exists p, new_phase to e = Ok p /\ r = Array p.
Proof.
  rewrite change_phase_unit_run.
  destruct (new_phase to e) as [p | ex]; intros [= <- <-];
    (split; [reflexivity |]); intros r [= <-]. eauto.
Qed.

Lemma change_spatial_unit_in_place (to : string) (e e' : t) (r : returned) :
  change_spatial_unit to true e = (Ok r, e') ->
  r = Self /\
  exists ux uy c, new_axes to e = Ok (ux, uy) /\ units !! lower to = Some c /\
                  e' = with__spatial_unit c (with_y uy (with_x ux e)).
Proof.
  rewrite change_spatial_unit_run.
  destruct (new_axes to e) as [[ux uy] | ex] eqn:Ha; [| discriminate].
  rewrite set_spatial_unit_run.
  destruct (units !! lower to) as [c |] eqn:Hc; [| discriminate].
  intros [= <- <-]. split; [reflexivity |]. exists ux, uy, c. auto.
Qed.

Lemma change_spatial_unit_copy_frame (to : string) (e e' : t) (out : result returned) :
  change_spatial_unit to false e = (out, e') ->
  e' = e /\
  forall r, out = Ok r ->
    exists ux uy, new_axes to e = Ok (ux, uy) /\ r = Axes ux uy.
Proof.
  rewrite change_spatial_unit_run.
  destruct (new_axes to e) as [[ux uy] | ex]; intros [= <- <-];
    (split; [reflexivity |]); intros r [= <-]. eauto.
Qed.

(** What a returning call assigns.  [change_phase_unit] with
    [inplace=True] returns [self] and assigns the new phase and, through the
    [phase_unit] setter, [_phase_unit]; no other attribute changes, [xyunit]
    and [zunit] included.  With [inplace=False] it returns the same new phase
    and the instance is unchanged in every attribute.  [change_spatial_unit]
    does the same with [x], [y] and the [spatial_unit] setter. *)
Lemma in_place_or_copy_frame (to : string) (e e' : t) :
  (forall r, change_phase_unit to true e = (Ok r, e') ->
     r = Self /\
     exists p c,
       fst (change_phase_unit to false e) = Ok (Array p) /\
       c ∈ canonical_codes /\ units !! to = Some c /\
       e' = with__phase_unit c (with_phase p e) /\
       phase e' = p /\ _phase_unit e' = Some c /\
       x e' = x e /\ y e' = y e /\ wavelength e' = wavelength e /\
       xyunit e' = xyunit e /\ zunit e' = zunit e /\
       _spatial_unit e' = _spatial_unit e /\
       xlabel e' = xlabel e /\ ylabel e' = ylabel e /\ zlabel e' = zlabel e) /\
  (forall out, change_phase_unit to false e = (out, e') ->
     e' = e /\ forall r, out = Ok r -> exists p, r = Array p) /\
  (forall r, change_spatial_unit to true e = (Ok r, e') ->
     r = Self /\
     exists ux uy c,
       fst (change_spatial_unit to false e) = Ok (Axes ux uy) /\
       c ∈ canonical_codes /\ units !! lower to = Some c /\
       e' = with__spatial_unit c (with_y uy (with_x ux e)) /\
       x e' = ux /\ y e' = uy /\ _spatial_unit e' = Some c /\
       phase e' = phase e /\ wavelength e' = wavelength e /\
       xyunit e' = xyunit e /\ zunit e' = zunit e /\
       _phase_unit e' = _phase_unit e /\
       xlabel e' = xlabel e /\ ylabel e' = ylabel e /\ zlabel e' = zlabel e) /\
  (forall out, change_spatial_unit to false e = (out, e') ->
     e' = e /\ forall r, out = Ok r -> exists ux uy, r = Axes ux uy).
Proof.
  split.
  { intros r H. apply change_phase_unit_in_place in H
      as (Hr & p & c & Hp & Hc & ->).
    split; [exact Hr |]. exists p, c.
    split; [rewrite change_phase_unit_run, Hp; reflexivity |].
    split; [apply canonical_codes_values; eauto |].
    split; [exact Hc |]. repeat split. }
  split.
  { intros out H. apply change_phase_unit_copy_frame in H as (-> & H).
    split; [reflexivity |]. intros r Hr.
    destruct (H r Hr) as (p & _ & ->). eauto. }
  split.
  { intros r H. apply change_spatial_unit_in_place in H
      as (Hr & ux & uy & c & Ha & Hc & ->).
    split; [exact Hr |]. exists ux, uy, c.
    split; [rewrite change_spatial_unit_run, Ha; reflexivity |].
    split; [apply canonical_codes_values; eauto |].
    split; [exact Hc |]. repeat split. }
  intros out H. apply change_spatial_unit_copy_frame in H as (-> & H).
  split; [reflexivity |]. intros r Hr.
  destruct (H r Hr) as (ux & uy & _ & ->). eauto.
Qed.

(** C7 (the code at failing inputs): an in-place conversion does not
    replace the unit that the instance reads.  On an instance that reads
    ['nm'], [change_phase_unit('waves')] returns [self] with the phase
    replaced and ['λ'] stored in [_phase_unit], and [phase_unit] still reads
    ['nm']; on axes that read ['mm'], [change_spatial_unit('micron')] returns
    [self] with the axes replaced and ['μm'] stored in [_spatial_unit], and
    [spatial_unit] still reads ['mm'].  So it is on every returning in-place
    call: both properties read what they read before.  And for the key ['Å']
    the in-place [change_spatial_unit] does not return the instance: it
    replaces [x] and [y] and then raises the invalid-unit error. *)
Theorem C7_in_place_unit_not_replaced :
  units !! "waves" = Some "λ" /\
  change_phase_unit "waves" true hene_nm
    = (Ok Self,
       with__phase_unit "λ"
         (with_phase [[1 / (Q2Qc 1e3 * Q2Qc 0.6328)]] hene_nm)) /\
  phase_unit hene_nm = "nm" /\
  phase_unit (snd (change_phase_unit "waves" true hene_nm)) = "nm" /\
  units !! "micron" = Some "μm" /\
  change_spatial_unit "micron" true grid_mm
    = (Ok Self,
       with__spatial_unit "μm"
         (with_y [Q2Qc (-2) / Q2Qc 1e-3; Q2Qc 2 / Q2Qc 1e-3]
            (with_x [Q2Qc (-1) / Q2Qc 1e-3; 0 / Q2Qc 1e-3; 1 / Q2Qc 1e-3]
               grid_mm))) /\
  spatial_unit grid_mm = "mm" /\
  spatial_unit (snd (change_spatial_unit "micron" true grid_mm)) = "mm" /\
  (forall to e e' r,
     change_phase_unit to true e = (Ok r, e') ->
     phase_unit e' = phase_unit e /\ spatial_unit e' = spatial_unit e) /\
  (forall to e e' r,
     change_spatial_unit to true e = (Ok r, e') ->
     phase_unit e' = phase_unit e /\ spatial_unit e' = spatial_unit e) /\
  units !! "Å" = Some "Å" /\
  change_spatial_unit "Å" true grid_mm
    = (Raise (ValueError "å" (dom units)),
       with_y [Q2Qc (-2) / Q2Qc 1e-7; Q2Qc 2 / Q2Qc 1e-7]
         (with_x [Q2Qc (-1) / Q2Qc 1e-7; 0 / Q2Qc 1e-7; 1 / Q2Qc 1e-7] grid_mm)).
Proof.
  split; [reflexivity |]. split; [compute_done |].
  split; [reflexivity |]. split; [compute_done |].
  split; [reflexivity |]. split; [compute_done |].
  split; [reflexivity |]. split; [compute_done |].
  split.
  { intros to e e' r H.
    apply change_phase_unit_in_place in H as (_ & p & c & _ & _ & ->).
    split; reflexivity. }
  split.
  { intros to e e' r H.
    apply change_spatial_unit_in_place in H as (_ & ux & uy & c & _ & _ & ->).
    split; reflexivity. }
  split; [reflexivity | compute_done].
Qed.

Lemma C7_in_place_unit_not_replaced_witness :
  phase_unit (snd (change_phase_unit "mm" true hene_nm)) = phase_unit hene_nm /\
  spatial_unit (snd (change_spatial_unit "meter" true grid_mm))
    = spatial_unit grid_mm.
Proof.
  destruct C7_in_place_unit_not_replaced
    as (_ & _ & _ & _ & _ & _ & _ & _ & Hp & Hs & _).
  assert (Hrun : change_phase_unit "mm" true hene_nm
                 = (Ok Self, snd (change_phase_unit "mm" true hene_nm)))
    by compute_done.
  assert (Hrun' : change_spatial_unit "meter" true grid_mm
                  = (Ok Self, snd (change_spatial_unit "meter" true grid_mm)))
    by compute_done.
  destruct (Hp "mm" hene_nm _ Self Hrun) as [H1 _].
  destruct (Hs "meter" grid_mm _ Self Hrun') as [_ H2].
  split; [exact H1 | exact H2].
Defined.

End Frame.

(** * The unit properties over the life of an instance *)

Section UnitProperties.

Lemma new_phase_same (to : string) (a b : t) :
  same_but_set_units a b -> new_phase to a = new_phase to b.
Proof.
  intros (_ & _ & Hp & _ & _ & _ & Hxy & _ & Hw).
  unfold new_phase, phase_unit. rewrite Hxy, Hw, Hp. reflexivity.
Qed.

Lemma new_axes_same (to : string) (a b : t) :
  same_but_set_units a b -> new_axes to a = new_axes to b.
Proof.
  intros (Hx & Hy & Hp & _ & _ & _ & _ & Hz & Hw).
  unfold new_axes, spatial_unit, shape. rewrite Hx, Hy, Hp, Hz, Hw. reflexivity.
Qed.

Lemma same_with__phase_unit (c c' : string) (a b : t) :
  same_but_set_units a b ->
  same_but_set_units (with__phase_unit c a) (with__phase_unit c' b).
Proof. intros H. exact H. Qed.

Lemma same_with__spatial_unit (c c' : string) (a b : t) :
  same_but_set_units a b ->
  same_but_set_units (with__spatial_unit c a) (with__spatial_unit c' b).
Proof. intros H. exact H. Qed.

Lemma same_with_phase (p : list (list Qc)) (a b : t) :
  same_but_set_units a b -> same_but_set_units (with_phase p a) (with_phase p b).
Proof.
  intros (Hx & Hy & _ & Hxl & Hyl & Hzl & Hxy & Hz & Hw).
  unfold same_but_set_units. cbn. auto 10.
Qed.

Lemma same_with_axes (ux uy : list Qc) (a b : t) :
  same_but_set_units a b ->
  same_but_set_units (with_y uy (with_x ux a)) (with_y uy (with_x ux b)).
Proof.
  intros (_ & _ & Hp & Hxl & Hyl & Hzl & Hxy & Hz & Hw).
  unfold same_but_set_units. cbn. auto 10.
Qed.

Lemma set_phase_unit_writes (u : string) (e : t) :
  snd (set_phase_unit u e) = e \/
  exists c, snd (set_phase_unit u e) = with__phase_unit c e.
Proof.
  rewrite set_phase_unit_run.
  destruct (decide (lower u = "å")); [right; eauto |].
  destruct (units !! lower u); [right; eauto | left; reflexivity].
Qed.

Lemma set_spatial_unit_writes (u : string) (e : t) :
  snd (set_spatial_unit u e) = e \/
  exists c, snd (set_spatial_unit u e) = with__spatial_unit c e.
Proof.
  rewrite set_spatial_unit_run.
  destruct (units !! lower u); [right; eauto | left; reflexivity].
Qed.

(** No call reads [_phase_unit] or [_spatial_unit]. *)
Lemma outcome_same (c : call) (a b : t) :
  same_but_set_units a b ->
  fst (outcome c a) = fst (outcome c b) /\
  same_but_set_units (after c a) (after c b).
Proof.
  intros H. unfold after. destruct c as [u | u | to inplace | to inplace]; cbn [outcome].
  - unfold bind, ret. rewrite !set_phase_unit_run.
    destruct (decide (lower u = "å"));
      [split; [reflexivity | by apply same_with__phase_unit] |].
    destruct (units !! lower u);
      [split; [reflexivity | by apply same_with__phase_unit] | by split].
  - unfold bind, ret. rewrite !set_spatial_unit_run.
    destruct (units !! lower u);
      [split; [reflexivity | by apply same_with__spatial_unit] | by split].
  - rewrite !change_phase_unit_run, (new_phase_same to a b H).
    destruct (new_phase to b) as [p | ex]; [| by split].
    destruct inplace; [| by split].
    rewrite !set_phase_unit_run.
    pose proof (same_with_phase p a b H) as Hp.
    destruct (decide (lower to = "å"));
      [split; [reflexivity | by apply same_with__phase_unit] |].
    destruct (units !! lower to);
      [split; [reflexivity | by apply same_with__phase_unit] | by split].
  - rewrite !change_spatial_unit_run, (new_axes_same to a b H).
    destruct (new_axes to b) as [[ux uy] | ex]; [| by split].
    destruct inplace; [| by split].
    rewrite !set_spatial_unit_run.
    pose proof (same_with_axes ux uy a b H) as Hp.
    destruct (units !! lower to);
      [split; [reflexivity | by apply same_with__spatial_unit] | by split].
Qed.

Lemma after_keeps_base_units (c : call) (e : t) :
  xyunit (after c e) = xyunit e /\ zunit (after c e) = zunit e.
Proof.
  unfold after. destruct c as [u | u | to inplace | to inplace]; cbn [outcome].
  - unfold bind, ret. rewrite set_phase_unit_run.
    destruct (decide (lower u = "å")); [by split |].
    destruct (units !! lower u); by split.
  - unfold bind, ret. rewrite set_spatial_unit_run.
    destruct (units !! lower u); by split.
  - rewrite change_phase_unit_run.
    destruct (new_phase to e) as [p | ex]; [| by split].
    destruct inplace; [| by split].
    rewrite set_phase_unit_run.
    destruct (decide (lower to = "å")); [by split |].
    destruct (units !! lower to); by split.
  - rewrite change_spatial_unit_run.
    destruct (new_axes to e) as [[ux uy] | ex]; [| by split].
    destruct inplace; [| by split].
    rewrite set_spatial_unit_run.
    destruct (units !! lower to); by split.
Qed.

Lemma after_all_keeps_base_units (cs : list call) (e : t) :
  xyunit (after_all cs e) = xyunit e /\ zunit (after_all cs e) = zunit e.
Proof.
  revert e. induction cs as [| c cs IH]; intros e; [by split |].
  cbn [after_all fold_left]. fold (after_all cs (after c e)).
  destruct (IH (after c e)) as [H1 H2].
  destruct (after_keeps_base_units c e) as [H3 H4].
  split; congruence.
Qed.

(** C10: on the instance constructed with [spatial_unit=s] and
    [phase_unit=p], [phase_unit] reads [xyunit], which is [s], and
    [spatial_unit] reads [zunit], which is [p].  The setters assign at most
    [_phase_unit] and [_spatial_unit], which no call reads, so after any
    sequence of calls to the setters and to the two conversions, returning or
    raising, both properties read what they read before. *)
Theorem C10_unit_properties_read_base_units :
  (forall x0 y0 ph xl yl zl s p w,
     xyunit (__init__ x0 y0 ph xl yl zl s p w) = s /\
     zunit (__init__ x0 y0 ph xl yl zl s p w) = p /\
     phase_unit (__init__ x0 y0 ph xl yl zl s p w) = s /\
     spatial_unit (__init__ x0 y0 ph xl yl zl s p w) = p) /\
  (forall e, phase_unit e = xyunit e /\ spatial_unit e = zunit e) /\
  (forall u e,
     (snd (set_phase_unit u e) = e \/
      exists c, snd (set_phase_unit u e) = with__phase_unit c e) /\
     (snd (set_spatial_unit u e) = e \/
      exists c, snd (set_spatial_unit u e) = with__spatial_unit c e)) /\
  (forall c a b, same_but_set_units a b ->
     fst (outcome c a) = fst (outcome c b) /\
     same_but_set_units (after c a) (after c b)) /\
  (forall cs e,
     phase_unit (after_all cs e) = phase_unit e /\
     spatial_unit (after_all cs e) = spatial_unit e).
Proof.
  split; [intros; repeat split |].
  split; [intros; split; reflexivity |].
  split; [intros u e; split;
          [apply set_phase_unit_writes | apply set_spatial_unit_writes] |].
  split; [exact outcome_same |].
  intros cs e. unfold phase_unit, spatial_unit.
  apply after_all_keeps_base_units.
Qed.

Lemma C10_unit_properties_read_base_units_witness :
  fst (outcome (ChangePhaseUnit "waves" true) hene_nm)
    = fst (outcome (ChangePhaseUnit "waves" true) (with__phase_unit "m" hene_nm)) /\
  phase_unit (after_all [ChangePhaseUnit "waves" true; SetPhaseUnit "mm"] hene_nm)
    = phase_unit hene_nm.
Proof.
  destruct C10_unit_properties_read_base_units as (_ & _ & _ & Hsame & Hkeep).
  split.
  - apply Hsame. repeat split.
  - apply Hkeep.
Defined.

(** C8 (the code at failing inputs): an instance constructed with the
    aliases ['micron'] and ['nanometer'] reads them back as they were given,
    and a name that is no unit at all is read back as well; the phase setter
    stores the canonical code where the property does not read it; the
    spatial setter refuses the canonical code of the angstrom, and an
    in-place conversion of the axes to it raises after the axes were
    replaced. *)
Theorem C8_units_read_back_as_given :
  phase_unit (__init__ [0] [0] [[1]] "x" "y" "z" "micron" "nanometer" PyNone)
    = "micron" /\
  spatial_unit (__init__ [0] [0] [[1]] "x" "y" "z" "micron" "nanometer" PyNone)
    = "nanometer" /\
  ~ "micron" ∈ canonical_codes /\ ~ "nanometer" ∈ canonical_codes /\
  phase_unit (__init__ [0] [0] [[1]] "x" "y" "z" "furlong" "nm" PyNone)
    = "furlong" /\
  _phase_unit (snd (set_phase_unit "angstrom" grid_mm)) = Some "Å" /\
  phase_unit (snd (set_phase_unit "angstrom" grid_mm)) = "mm" /\
  units !! "Å" = Some "Å" /\
  set_spatial_unit "Å" grid_mm = (Raise (ValueError "å" (dom units)), grid_mm) /\
  change_spatial_unit "Å" true grid_mm
    = (Raise (ValueError "å" (dom units)),
       with_y [Q2Qc (-2) / Q2Qc 1e-7; Q2Qc 2 / Q2Qc 1e-7]
         (with_x [Q2Qc (-1) / Q2Qc 1e-7; 0 / Q2Qc 1e-7; 1 / Q2Qc 1e-7] grid_mm)).
Proof. repeat split; compute_done. Qed.

End UnitProperties.

(** * Further properties of the conversions *)

Section GridArithmetic.

Lemma Qc_div_one (v : Qc) : v / 1 = v.
Proof. qc_field. Qed.

Lemma Qc_div_div (v p q : Qc) : p <> 0 -> q <> 0 -> v / p / q = v / (p * q).
Proof. intros Hp Hq. qc_field. Qed.

Lemma Qc_div_pos (p q : Qc) : 0 < p -> 0 < q -> 0 < p / q.
Proof. intros Hp Hq. apply Qcmult_pos_pos; [exact Hp | apply Qcinv_pos, Hq]. Qed.

Lemma Qc_mul_nonzero (p q : Qc) : p <> 0 -> q <> 0 -> p * q <> 0.
Proof.
  intros Hp Hq H. destruct (Qcmult_integral _ _ H); contradiction.
Qed.

Lemma Qc_div_le (a b q : Qc) : 0 < q -> a <= b -> a / q <= b / q.
Proof.
  intros Hq H. apply Qcmult_le_mono_nonneg_r; [| exact H].
  apply Qclt_le_weak, Qcinv_pos, Hq.
Qed.

Lemma Qc_div_lt (a b q : Qc) : 0 < q -> (a < b <-> a / q < b / q).
Proof. intros Hq. apply Qcmult_lt_mono_pos_r, Qcinv_pos, Hq. Qed.

Lemma Qc_div_sub (a b q : Qc) : q <> 0 -> a / q - b / q = (a - b) / q.
Proof. intros Hq. qc_field. Qed.

Lemma max2_div (a b q : Qc) : 0 < q -> max2 (a / q) (b / q) = max2 a b / q.
Proof.
  intros Hq. unfold max2.
  destruct (decide (a < b)) as [H | H], (decide (a / q < b / q)) as [H' | H'];
    try reflexivity.
  - exfalso. apply H'. by apply Qc_div_lt.
  - exfalso. apply H. by apply (Qc_div_lt a b q).
Qed.

Lemma scaled_one (p : list (list Qc)) : scaled 1 p = p.
Proof.
  unfold scaled. rewrite <- (map_id p) at 2. apply map_ext. intros r.
  rewrite <- (map_id r) at 2. apply map_ext. intros v. apply Qc_div_one.
Qed.

Lemma map_div_one (a : list Qc) : map (fun v => v / 1) a = a.
Proof.
  rewrite <- (map_id a) at 2. apply map_ext. intros v. apply Qc_div_one.
Qed.

Lemma scaled_scaled (p : list (list Qc)) (f g : Qc) :
  f <> 0 -> g <> 0 -> scaled g (scaled f p) = scaled (f * g) p.
Proof.
  intros Hf Hg. unfold scaled. rewrite map_map. apply map_ext. intros r.
  rewrite map_map. apply map_ext. intros v. by apply Qc_div_div.
Qed.

Lemma scaled_shape (q : Qc) (p : list (list Qc)) :
  map length (scaled q p) = map length p.
Proof.
  unfold scaled. rewrite map_map. apply map_ext. intros r. apply length_map.
Qed.

End GridArithmetic.

Section Copies.

Lemma change_phase_unit_scaled (to target : string) (e : t) (q : Qc) :
  units !! to = Some target ->
  factor (phase_unit e) target (wavelength e) = Some (Ok (PyFloat q)) ->
  q <> 0 ->
  change_phase_unit to false e = (Ok (Array (scaled q (phase e))), e).
Proof. exact (change_phase_unit_copy to target e q). Qed.

Lemma change_spatial_unit_copy (to target : string) (e : t) (q : Qc) :
  lower to <> "px" ->
  units !! to = Some target ->
  factor (spatial_unit e) target (wavelength e) = Some (Ok (PyFloat q)) ->
  q <> 0 ->
  change_spatial_unit to false e
    = (Ok (Axes (map (fun v => v / q) (x e)) (map (fun v => v / q) (y e))), e).
Proof.
  intros Hpx Ht Hf Hq. apply factor_entry in Hf as (f & Hf & Hr).
  rewrite change_spatial_unit_run. unfold new_axes, getitem.
  destruct (decide (lower to <> "px")); [| contradiction].
  rewrite Ht. cbn [rbind]. rewrite Hf. cbn [rbind]. rewrite Hr. cbn [rbind].
  rewrite !divide_float by exact Hq. reflexivity.
Qed.

Lemma factor_same (a : string) (w : value) :
  a ∈ canonical_codes -> factor a a w = Some (Ok (PyFloat 1)).
Proof. intros H. case_code H; reflexivity. Qed.

Lemma factor_from_pixel (b : string) (w : value) :
  b ∈ canonical_codes -> factor "px" b w = Some (Ok (PyFloat 1)).
Proof. intros H. case_code H; reflexivity. Qed.

End Copies.

Ltac positive_scale :=
  first
    [ reflexivity
    | apply Qcmult_pos_pos; [reflexivity | assumption]
    | apply Qc_div_pos; [reflexivity | assumption]
    | assumption ].

Ltac factor_value :=
  unfold factor; cbn [join String.concat String.append];
  repeat uc_lookup;
  rewrite ?truediv_float by assumption; cbn [mul];
  reflexivity.

(** As [qc_field], with the powers of ten of the literals evaluated first,
    for equations that relate different powers. *)
Ltac qc_powers :=
  apply Qc_is_canon;
  unfold Qcdiv, Qcmult, Qcinv, Qcplus, Qcminus, Qcopp, Q2Qc; simpl this;
  repeat rewrite !Qred_correct;
  repeat match goal with
         | |- context [Z.pow_pos ?a ?b] =>
             let v := eval vm_compute in (Z.pow_pos a b) in
             change (Z.pow_pos a b) with v
         end;
  field; repeat split; try (apply Qc_this_nonzero; assumption); try done.

Ltac known_scale H :=
  match type of H with
  | scale_at ?a ?w = Some _ =>
      let E := fresh in
      eassert (E : scale_at a w = Some _) by reflexivity;
      rewrite E in H; clear E; injection H as <-
  end.

Section Scales.

(** The metric entries of [unit_changes] against [unit_scales]. *)
Lemma metric_factor_ratio (a b : string) (w : value) :
  a ∈ metric_codes -> b ∈ metric_codes ->
  exists sa sb f : Qc,
    unit_scales !! a = Some sa /\ unit_scales !! b = Some sb /\
    factor a b w = Some (Ok (PyFloat f)) /\
    0 < f /\ f = sb / sa.
Proof.
  intros Ha Hb. unfold metric_codes in Ha, Hb.
  case_list Ha; case_list Hb;
    (do 3 eexists; split; [reflexivity |]; split; [reflexivity |];
     split; [reflexivity |]; split; [reflexivity | qc_field]).
Qed.

Lemma units_of_length_have_scales (a : string) (w : Qc) :
  a ∈ length_codes -> 0 < w -> exists sa, scale_at a w = Some sa /\ 0 < sa.
Proof.
  intros Ha Hw. unfold length_codes in Ha.
  case_list Ha; (eexists; split; [reflexivity | positive_scale]).
Qed.

(** Between units of length the factor is the ratio of the lengths of the
    two units, the entry from waves to micrometer apart. *)
Lemma factor_is_length_ratio (a b : string) (w sa sb : Qc) :
  a ∈ length_codes -> b ∈ length_codes ->
  ~ (a = "λ" /\ b = "μm") ->
  0 < w ->
  scale_at a w = Some sa -> scale_at b w = Some sb ->
  factor a b (PyFloat w) = Some (Ok (PyFloat (sb / sa))).
Proof.
  intros Ha Hb Hex Hw Hsa Hsb. pose proof (Qc_pos_nonzero w Hw) as Hw0.
  unfold length_codes in Ha, Hb.
  case_list Ha; case_list Hb;
    try (exfalso; apply Hex; split; reflexivity);
    known_scale Hsa; known_scale Hsb;
    (etransitivity; [factor_value |]); do 3 f_equal; qc_powers.
Qed.

End Scales.

Section Composition.

Lemma factor_positive (a b : string) (w : Qc) :
  a ∈ canonical_codes -> b ∈ canonical_codes ->
  b <> "px" \/ a = "px" ->
  0 < w ->
  exists f, factor a b (PyFloat w) = Some (Ok (PyFloat f)) /\ 0 < f.
Proof.
  intros Ha Hb Hpx Hw. pose proof (Qc_pos_nonzero w Hw) as Hw0.
  case_code Ha; case_code Hb;
    try (exfalso; destruct Hpx as [Hpx | Hpx];
         [apply Hpx; reflexivity | discriminate Hpx]);
    (eexists; split; [factor_value | positive_scale]).
Qed.

(** X1: converting the phase, or the axes, to the unit that the property
    already reads returns them as they are, with or without a wavelength. *)
Theorem same_unit_conversion_is_identity (to : string) (e : t) :
  (phase_unit e ∈ canonical_codes -> units !! to = Some (phase_unit e) ->
     change_phase_unit to false e = (Ok (Array (phase e)), e)) /\
  (spatial_unit e ∈ canonical_codes -> units !! to = Some (spatial_unit e) ->
   lower to <> "px" ->
     change_spatial_unit to false e = (Ok (Axes (x e) (y e)), e)).
Proof.
  split.
  - intros Hc Ht.
    rewrite (change_phase_unit_scaled to (phase_unit e) e 1 Ht);
      [rewrite scaled_one; reflexivity | by apply factor_same | discriminate].
  - intros Hc Ht Hpx.
    rewrite (change_spatial_unit_copy to (spatial_unit e) e 1 Hpx Ht);
      [rewrite !map_div_one; reflexivity | by apply factor_same | discriminate].
Qed.

Lemma same_unit_conversion_is_identity_witness :
  change_phase_unit "nanometer" false (one_sample "nm" (Q2Qc 3) PyNone)
    = (Ok (Array [[Q2Qc 3]]), one_sample "nm" (Q2Qc 3) PyNone) /\
  change_spatial_unit "millimeter" false grid_mm
    = (Ok (Axes (x grid_mm) (y grid_mm)), grid_mm).
Proof.
  split.
  - destruct (same_unit_conversion_is_identity "nanometer"
                (one_sample "nm" (Q2Qc 3) PyNone)) as [H _].
    apply H; [compute_done | reflexivity].
  - destruct (same_unit_conversion_is_identity "millimeter" grid_mm) as [_ H].
    apply H; [compute_done | reflexivity | discriminate].
Defined.

(** Between units of length the factor of a direct conversion is the
    product of the factors of two conversions in a row, as long as no entry
    from waves to micrometer is read. *)
Lemma factors_compose (a b c : string) (w : Qc) :
  a ∈ length_codes -> b ∈ length_codes -> c ∈ length_codes ->
  ~ (a = "λ" /\ b = "μm") -> ~ (b = "λ" /\ c = "μm") ->
  ~ (a = "λ" /\ c = "μm") ->
  0 < w ->
  exists fab fbc,
    factor a b (PyFloat w) = Some (Ok (PyFloat fab)) /\
    factor b c (PyFloat w) = Some (Ok (PyFloat fbc)) /\
    factor a c (PyFloat w) = Some (Ok (PyFloat (fab * fbc))) /\
    fab <> 0 /\ fbc <> 0.
Proof.
  intros Ha Hb Hc Hab Hbc Hac Hw.
  destruct (units_of_length_have_scales _ w Ha Hw) as (sa & Hsa & Hpa).
  destruct (units_of_length_have_scales _ w Hb Hw) as (sb & Hsb & Hpb).
  destruct (units_of_length_have_scales _ w Hc Hw) as (sc & Hsc & Hpc).
  pose proof (Qc_pos_nonzero _ Hpa) as Hna.
  pose proof (Qc_pos_nonzero _ Hpb) as Hnb.
  pose proof (Qc_pos_nonzero _ Hpc) as Hnc.
  exists (sb / sa), (sc / sb).
  split; [by apply factor_is_length_ratio |].
  split; [by apply factor_is_length_ratio |].
  split.
  - rewrite (factor_is_length_ratio a c w sa sc) by assumption.
    do 3 f_equal. qc_field.
  - split; apply Qc_pos_nonzero, Qc_div_pos; assumption.
Qed.

(** X2: conversions between units of length compose.  When an instance in
    unit B holds the phase that converting another instance from A to B
    returned, at the same wavelength, converting it from B to C gives what
    converting the first instance from A to C gives, as long as no step reads
    the entry from waves to micrometer. *)
Theorem conversions_compose (e1 e2 : t) (tb tc b c : string) (w : Qc) :
  0 < w -> wavelength e1 = PyFloat w -> wavelength e2 = PyFloat w ->
  phase_unit e1 ∈ length_codes -> b ∈ length_codes -> c ∈ length_codes ->
  units !! tb = Some b -> units !! tc = Some c ->
  phase_unit e2 = b ->
  ~ (phase_unit e1 = "λ" /\ b = "μm") ->
  ~ (b = "λ" /\ c = "μm") ->
  ~ (phase_unit e1 = "λ" /\ c = "μm") ->
  change_phase_unit tb false e1 = (Ok (Array (phase e2)), e1) ->
  exists p2,
    change_phase_unit tc false e1 = (Ok (Array p2), e1) /\
    change_phase_unit tc false e2 = (Ok (Array p2), e2).
Proof.
  intros Hw Hw1 Hw2 Ha Hb Hc Htb Htc Hu2 Hab Hbc Hac Hstep.
  destruct (factors_compose _ b c w Ha Hb Hc Hab Hbc Hac Hw)
    as (fab & fbc & Fab & Fbc & Fac & Hfab & Hfbc).
  rewrite (change_phase_unit_scaled tb b e1 fab Htb) in Hstep;
    [| rewrite Hw1; exact Fab | exact Hfab].
  injection Hstep as Hp.
  exists (scaled (fab * fbc) (phase e1)).
  split.
  - apply (change_phase_unit_scaled tc c); [exact Htc | |].
    + rewrite Hw1. exact Fac.
    + by apply Qc_mul_nonzero.
  - rewrite (change_phase_unit_scaled tc c e2 fbc Htc);
      [| rewrite Hu2, Hw2; exact Fbc | exact Hfbc].
    rewrite <- Hp, scaled_scaled by assumption. reflexivity.
Qed.

Lemma conversions_compose_witness :
  exists p2,
    change_phase_unit "waves" false (one_sample "mm" 1 (PyFloat (Q2Qc 0.5)))
      = (Ok (Array p2), one_sample "mm" 1 (PyFloat (Q2Qc 0.5))) /\
    change_phase_unit "waves" false (one_sample "nm" (Q2Qc 1e6) (PyFloat (Q2Qc 0.5)))
      = (Ok (Array p2), one_sample "nm" (Q2Qc 1e6) (PyFloat (Q2Qc 0.5))).
Proof.
  apply (conversions_compose _ _ "nm" "waves" "nm" "λ" (Q2Qc 0.5));
    compute_done.
Defined.

(** X3: the round trip on a pair of instances.  When an instance in unit B
    holds the phase that converting another instance from A to B returned,
    at the same wavelength, converting it back to A returns the phase of the
    first instance, for every pair of units of length but micrometer and
    waves. *)
Theorem paired_round_trip (e1 e2 : t) (ta tb b : string) (w : Qc) :
  0 < w -> wavelength e1 = PyFloat w -> wavelength e2 = PyFloat w ->
  phase_unit e1 ∈ length_codes -> b ∈ length_codes ->
  units !! tb = Some b -> units !! ta = Some (phase_unit e1) ->
  phase_unit e2 = b ->
  ~ (phase_unit e1 = "λ" /\ b = "μm") ->
  ~ (b = "λ" /\ phase_unit e1 = "μm") ->
  change_phase_unit tb false e1 = (Ok (Array (phase e2)), e1) ->
  change_phase_unit ta false e2 = (Ok (Array (phase e1)), e2).
Proof.
  intros Hw Hw1 Hw2 Ha Hb Htb Hta Hu2 Hab Hba Hstep.
  destruct (factors_compose _ b (phase_unit e1) w Ha Hb Ha Hab Hba)
    as (fab & fba & Fab & Fba & Faa & Hfab & Hfba); [| exact Hw |].
  { intros [H H']. rewrite H in H'. discriminate H'. }
  assert (Hc : phase_unit e1 ∈ canonical_codes).
  { apply canonical_codes_values. eauto. }
  rewrite (factor_same _ (PyFloat w) Hc) in Faa.
  assert (Hone : 1 = fab * fba) by congruence.
  rewrite (change_phase_unit_scaled tb b e1 fab Htb) in Hstep;
    [| rewrite Hw1; exact Fab | exact Hfab].
  injection Hstep as Hp.
  rewrite (change_phase_unit_scaled ta (phase_unit e1) e2 fba Hta);
    [| rewrite Hu2, Hw2; exact Fba | exact Hfba].
  rewrite <- Hp, scaled_scaled, <- Hone, scaled_one by assumption.
  reflexivity.
Qed.

Lemma paired_round_trip_witness :
  change_phase_unit "waves" false (one_sample "Å" (Q2Qc 5000) (PyFloat (Q2Qc 0.5)))
    = (Ok (Array (phase (one_sample "λ" 1 (PyFloat (Q2Qc 0.5))))),
       one_sample "Å" (Q2Qc 5000) (PyFloat (Q2Qc 0.5))).
Proof.
  apply (paired_round_trip (one_sample "λ" 1 (PyFloat (Q2Qc 0.5))) _
           "waves" "angstrom" "Å" (Q2Qc 0.5));
    compute_done.
Defined.

(** X4: with a positive wavelength every conversion of the phase whose
    table entry exists succeeds, and it divides by a positive factor: the
    sign and the order of the samples are kept. *)
Theorem positive_wavelength_conversion (to target : string) (e : t) (w : Qc) :
  wavelength e = PyFloat w -> 0 < w ->
  units !! to = Some target ->
  phase_unit e ∈ canonical_codes ->
  target <> "px" \/ phase_unit e = "px" ->
  exists f,
    0 < f /\
    change_phase_unit to false e = (Ok (Array (scaled f (phase e))), e) /\
    (forall u v : Qc, u <= v -> u / f <= v / f) /\
    (forall v : Qc, 0 < v -> 0 < v / f).
Proof.
  intros Hwl Hw Ht Hc Hpx.
  assert (Hb : target ∈ canonical_codes) by (apply canonical_codes_values; eauto).
  destruct (factor_positive _ _ w Hc Hb Hpx Hw) as (f & Hf & Hpos).
  exists f. split; [exact Hpos |]. split.
  - apply (change_phase_unit_scaled to target); [exact Ht | | by apply Qc_pos_nonzero].
    rewrite Hwl. exact Hf.
  - split; [intros u v; by apply Qc_div_le | intros v Hv; by apply Qc_div_pos].
Qed.

Lemma positive_wavelength_conversion_witness :
  exists f,
    0 < f /\
    change_phase_unit "mm" false (one_sample "λ" 1 (PyFloat (Q2Qc 0.5)))
      = (Ok (Array (scaled f (phase (one_sample "λ" 1 (PyFloat (Q2Qc 0.5)))))),
         one_sample "λ" 1 (PyFloat (Q2Qc 0.5))).
Proof.
  destruct (positive_wavelength_conversion "mm" "mm"
              (one_sample "λ" 1 (PyFloat (Q2Qc 0.5))) (Q2Qc 0.5))
    as (f & Hf & Hrun & _); [reflexivity | reflexivity | reflexivity
                             | compute_done | left; discriminate |].
  exists f. auto.
Defined.

(** X5: the phase cannot be converted to pixels: from any other unit the
    key is missing, the call raises [KeyError] with that key whatever
    [inplace] is, and the instance is unchanged. *)
Theorem no_phase_in_pixels (to : string) (inplace : bool) (e : t) :
  units !! to = Some "px" ->
  phase_unit e ∈ canonical_codes -> phase_unit e <> "px" ->
  change_phase_unit to inplace e
    = (Raise (KeyError (join "_" [phase_unit e; "px"])), e).
Proof.
  intros Ht Hc Hpx. apply (change_phase_unit_no_entry to "px"); [exact Ht |].
  destruct (unit_changes !! join "_" [phase_unit e; "px"]) as [f |] eqn:Hf;
    [| reflexivity].
  exfalso.
  assert (Hsome : is_Some (unit_changes !! join "_" [phase_unit e; "px"]))
    by (rewrite Hf; eauto).
  apply unit_changes_entries in Hsome; [| exact Hc | compute_done].
  destruct Hsome as [H | H]; [apply H; reflexivity | contradiction].
Qed.

Lemma no_phase_in_pixels_witness :
  change_phase_unit "pixel" true hene_nm = (Raise (KeyError "nm_px"), hene_nm).
Proof.
  apply (no_phase_in_pixels "pixel" true hene_nm);
    [reflexivity | compute_done | discriminate].
Defined.

(** X6: nothing is rescaled on the way out of pixels.  When the property
    reads ['px'], every conversion of the phase, and every conversion of the
    axes that takes the factor branch, returns the values as they are, with
    or without a wavelength. *)
Theorem from_pixels_nothing_is_rescaled (to target : string) (e : t) :
  units !! to = Some target ->
  (phase_unit e = "px" ->
     change_phase_unit to false e = (Ok (Array (phase e)), e)) /\
  (spatial_unit e = "px" -> lower to <> "px" ->
     change_spatial_unit to false e = (Ok (Axes (x e) (y e)), e)).
Proof.
  intros Ht.
  assert (Hb : target ∈ canonical_codes) by (apply canonical_codes_values; eauto).
  split.
  - intros Hu.
    rewrite (change_phase_unit_scaled to target e 1 Ht);
      [rewrite scaled_one; reflexivity | | discriminate].
    rewrite Hu. by apply factor_from_pixel.
  - intros Hu Hpx.
    rewrite (change_spatial_unit_copy to target e 1 Hpx Ht);
      [rewrite !map_div_one; reflexivity | | discriminate].
    rewrite Hu. by apply factor_from_pixel.
Qed.

Lemma from_pixels_nothing_is_rescaled_witness :
  change_spatial_unit "meter" false shifted_pixels
    = (Ok (Axes [Q2Qc 5; Q2Qc 7] [Q2Qc 3]), shifted_pixels).
Proof.
  destruct (from_pixels_nothing_is_rescaled "meter" "m" shifted_pixels) as [_ H];
    [reflexivity |].
  apply H; [reflexivity | discriminate].
Defined.

(** X7: with the wavelength 0, converting the phase from waves to a metric
    unit other than the micrometer raises [ZeroDivisionError] in the factor
    evaluation and leaves the instance unchanged. *)
Theorem zero_wavelength_from_waves (to target : string) (inplace : bool) (e : t) :
  units !! to = Some target ->
  wavelength e = PyFloat 0 -> phase_unit e = "λ" ->
  target ∈ metric_codes_but_micrometer ->
  change_phase_unit to inplace e = (Raise ZeroDivisionError, e).
Proof.
  intros Ht Hw Hu Hb.
  apply (change_phase_unit_factor_error to target); [exact Ht |].
  rewrite Hw, Hu. unfold metric_codes_but_micrometer in Hb.
  case_list Hb; reflexivity.
Qed.

Lemma zero_wavelength_from_waves_witness :
  change_phase_unit "nm" true (one_sample "λ" 1 (PyFloat 0))
    = (Raise ZeroDivisionError, one_sample "λ" 1 (PyFloat 0)).
Proof.
  apply (zero_wavelength_from_waves "nm" "nm"); [reflexivity .. | compute_done].
Defined.

End Composition.

(** * Failures of the conversions *)

Lemma Qc_div_nonzero (p q : Qc) : p <> 0 -> q <> 0 -> p / q <> 0.
Proof.
  intros Hp Hq. apply Qc_mul_nonzero; [exact Hp |].
  intros Hinv. apply (Qcmult_inv_r q) in Hq. rewrite Hinv, Qcmult_0_r in Hq.
  discriminate Hq.
Qed.

Ltac nonzero_value :=
  first
    [ discriminate
    | assumption
    | apply Qc_mul_nonzero; [discriminate | assumption]
    | apply Qc_div_nonzero; [discriminate | assumption] ].

Section Failures.

(** A table entry applied to a nonzero number returns a nonzero number. *)
Lemma entry_at_nonzero (k : string) (f : value -> result value) (w : Qc) :
  unit_changes !! k = Some f -> w <> 0 ->
  exists q, f (PyFloat w) = Ok (PyFloat q) /\ q <> 0.
Proof.
  intros Hf Hw.
  apply elem_of_list_to_map in Hf; [| apply unit_changes_keys_NoDup].
  unfold unit_changes_items in Hf.
  repeat (apply elem_of_cons in Hf as [[= -> ->] | Hf];
          [ eexists; split;
            [ try match goal with
                  | |- context [decide ?P] =>
                      destruct (decide P); [contradiction |]
                  end;
              reflexivity
            | nonzero_value ] |]).
  by apply elem_of_nil in Hf.
Qed.

(** A table entry applied to a missing wavelength raises nothing but
    [TypeError]. *)
Lemma entry_at_none (k : string) (f : value -> result value) (ex : exn) :
  unit_changes !! k = Some f -> f PyNone = Raise ex -> ex = TypeError.
Proof.
  intros Hf.
  apply elem_of_list_to_map in Hf; [| apply unit_changes_keys_NoDup].
  unfold unit_changes_items in Hf.
  repeat (apply elem_of_cons in Hf as [[= -> ->] | Hf];
          [ cbn; intros [= <-]; reflexivity |]).
  by apply elem_of_nil in Hf.
Qed.

(** A table entry applied to a number raises nothing but
    [ZeroDivisionError], and that at zero only; it never returns [None]. *)
Lemma entry_at_number (k : string) (f : value -> result value) (w : Qc) :
  unit_changes !! k = Some f ->
  (forall ex, f (PyFloat w) = Raise ex -> ex = ZeroDivisionError /\ w = 0) /\
  f (PyFloat w) <> Ok PyNone.
Proof.
  intros Hf.
  apply elem_of_list_to_map in Hf; [| apply unit_changes_keys_NoDup].
  unfold unit_changes_items in Hf.
  repeat (apply elem_of_cons in Hf as [[= -> ->] | Hf];
          [ split;
            [ intros ex0;
              first [ intros H; discriminate H
                    | destruct (decide (w = 0)) as [E |];
                      [intros [= <-]; auto | intros H; discriminate H] ]
            | first [ intros H; discriminate H
                    | destruct (decide (w = 0)); intros H; discriminate H ] ] |]).
  by apply elem_of_nil in Hf.
Qed.

Lemma new_phase_ok (to : string) (e : t) (p : list (list Qc)) :
  new_phase to e = Ok p ->
  exists target q,
    units !! to = Some target /\
    factor (phase_unit e) target (wavelength e) = Some (Ok (PyFloat q)) /\
    q <> 0 /\ p = scaled q (phase e).
Proof.
  unfold new_phase, getitem.
  destruct (units !! to) as [target |] eqn:Ht; [| discriminate]. cbn [rbind].
  destruct (unit_changes !! join "_" [phase_unit e; target]) as [f |] eqn:Hf;
    [| discriminate].
  cbn [rbind].
  destruct (f (wavelength e)) as [[| q] | ex] eqn:Hw; try discriminate.
  cbn [rbind np.divide2].
  destruct (decide (q = 0)) as [| Hq]; [discriminate |].
  intros [= <-]. exists target, q.
  split; [reflexivity |]. split; [unfold factor; rewrite Hf, Hw; reflexivity |].
  split; [exact Hq | reflexivity].
Qed.

Lemma new_axes_ok (to : string) (e : t) (ux uy : list Qc) :
  new_axes to e = Ok (ux, uy) ->
  (lower to = "px" /\ ux = np.arange (snd (shape e)) /\
   uy = np.arange (fst (shape e))) \/
  (lower to <> "px" /\
   exists target q,
     units !! to = Some target /\
     factor (spatial_unit e) target (wavelength e) = Some (Ok (PyFloat q)) /\
     q <> 0 /\ ux = map (fun v => v / q) (x e) /\
     uy = map (fun v => v / q) (y e)).
Proof.
  unfold new_axes, getitem.
  destruct (decide (lower to <> "px")) as [Hpx | Hpx].
  - destruct (units !! to) as [target |] eqn:Ht; [| discriminate]. cbn [rbind].
    destruct (unit_changes !! join "_" [spatial_unit e; target]) as [f |] eqn:Hf;
      [| discriminate].
    cbn [rbind].
    destruct (f (wavelength e)) as [[| q] | ex] eqn:Hw; try discriminate.
    cbn [rbind np.divide].
    destruct (decide (q = 0)) as [| Hq]; [discriminate |]. cbn [rbind].
    intros [= <- <-]. right. split; [exact Hpx |]. exists target, q.
    split; [reflexivity |].
    split; [unfold factor; rewrite Hf, Hw; reflexivity |].
    split; [exact Hq |]. split; reflexivity.
  - intros [= <- <-]. left. split; [by apply dec_stable | auto].
Qed.

(** X8: a failing [change_phase_unit] leaves the instance unchanged,
    whatever [inplace] is; it never raises the invalid-unit error or an
    [IndexError]; it raises [TypeError] only when the wavelength is missing;
    and with a nonzero wavelength the only failures are the [KeyError] of a
    target that is not a key of [units] and the [KeyError] of a pair without
    a table entry. *)
Theorem phase_conversion_failures (to : string) (inplace : bool)
    (e e' : t) (ex : exn) :
  change_phase_unit to inplace e = (Raise ex, e') ->
  e' = e /\
  (forall u v, ex <> ValueError u v) /\ ex <> IndexError /\
  (ex = TypeError -> wavelength e = PyNone) /\
  (forall w, wavelength e = PyFloat w -> w <> 0 ->
     (units !! to = None /\ ex = KeyError to) \/
     exists target,
       units !! to = Some target /\
       unit_changes !! join "_" [phase_unit e; target] = None /\
       ex = KeyError (join "_" [phase_unit e; target])).
Proof.
  rewrite change_phase_unit_run.
  destruct (new_phase to e) as [p | ex0] eqn:Hp.
  { destruct (new_phase_ok to e p Hp) as (target & q & Ht & _).
    destruct inplace; [| discriminate].
    rewrite (set_phase_unit_alias to target _ Ht). discriminate. }
  intros [= -> <-]. split; [reflexivity |].
  revert Hp. unfold new_phase, getitem.
  destruct (units !! to) as [target |] eqn:Ht; cbn [rbind].
  2: { intros [= <-]. repeat split; try discriminate. intros w _ _. auto. }
  destruct (unit_changes !! join "_" [phase_unit e; target]) as [f |] eqn:Hf;
    cbn [rbind].
  2: { intros [= <-]. repeat split; try discriminate. intros w _ _. right.
       exists target. auto. }
  destruct (wavelength e) as [| w] eqn:Hw.
  - destruct (f PyNone) as [[| q] | ex1] eqn:Hr; cbn [rbind np.divide2].
    + intros [= <-]. repeat split; try discriminate.
    + destruct (decide (q = 0)); [| discriminate].
      intros [= <-]. repeat split; discriminate.
    + intros [= <-]. rewrite (entry_at_none _ f ex1 Hf Hr).
      repeat split; discriminate.
  - destruct (entry_at_number _ f w Hf) as [Hraise Hnone].
    destruct (f (PyFloat w)) as [[| q] | ex1] eqn:Hr; cbn [rbind np.divide2].
    + contradiction.
    + destruct (decide (q = 0)) as [-> |]; [| discriminate].
      intros [= <-]. repeat split; try discriminate.
      intros w' [= <-] Hne.
      destruct (entry_at_nonzero _ f w Hf Hne) as (q' & Hq' & Hq0).
      rewrite Hr in Hq'. injection Hq' as <-. contradiction.
    + intros [= <-]. destruct (Hraise ex1 eq_refl) as [-> ->].
      repeat split; try discriminate.
      intros w' [= <-] Hne. contradiction.
Qed.

Lemma phase_conversion_failures_witness :
  snd (change_phase_unit "furlong" true hene_nm) = hene_nm /\
  fst (change_phase_unit "furlong" true hene_nm) = Raise (KeyError "furlong").
Proof.
  assert (Hrun : change_phase_unit "furlong" true hene_nm
                 = (Raise (KeyError "furlong"),
                    snd (change_phase_unit "furlong" true hene_nm)))
    by compute_done.
  destruct (phase_conversion_failures "furlong" true hene_nm _ _ Hrun)
    as (He & _).
  split; [exact He | rewrite Hrun; reflexivity].
Defined.

(** X9: a failing in-place [change_spatial_unit] leaves the instance
    unchanged but in one case: for the target ['Å'] the axes are replaced by
    the converted ones and the setter then raises the invalid-unit error. *)
Theorem spatial_in_place_failure (to : string) (e e' : t) (ex : exn) :
  change_spatial_unit to true e = (Raise ex, e') ->
  e' = e \/
  (to = "Å" /\ ex = ValueError "å" (dom units) /\
   exists ux uy,
     change_spatial_unit to false e = (Ok (Axes ux uy), e) /\
     e' = with_y uy (with_x ux e)).
Proof.
  rewrite !change_spatial_unit_run.
  destruct (new_axes to e) as [[ux uy] | ex0] eqn:Ha;
    [| intros [= _ <-]; left; reflexivity].
  rewrite set_spatial_unit_run.
  destruct (units !! lower to) as [c |] eqn:Hc; [discriminate |].
  intros [= <- <-]. right.
  destruct (new_axes_ok to e ux uy Ha) as [(Hpx & _) | (_ & target & q & Ht & _)].
  - rewrite Hpx in Hc. discriminate Hc.
  - destruct (units_key_lower to target Ht) as [(Hl & -> & _) | (Hl & _ & _)].
    + split; [reflexivity |]. split; [reflexivity |]. exists ux, uy. auto.
    + rewrite Hl, Ht in Hc. discriminate Hc.
Qed.

Lemma spatial_in_place_failure_witness :
  snd (change_spatial_unit "furlong" true grid_mm) = grid_mm.
Proof.
  assert (Hrun : change_spatial_unit "furlong" true grid_mm
                 = (Raise (KeyError "furlong"),
                    snd (change_spatial_unit "furlong" true grid_mm)))
    by compute_done.
  destruct (spatial_in_place_failure "furlong" grid_mm _ _ Hrun)
    as [He | (Hto & _)]; [exact He | discriminate Hto].
Defined.

End Failures.

(** * Shapes and diameters under conversion *)

Section Shapes.

Lemma head_map (f : Qc -> Qc) (a : list Qc) : head (map f a) = f <$> head a.
Proof. destruct a; reflexivity. Qed.

Lemma last_map (f : Qc -> Qc) (a : list Qc) : last (map f a) = f <$> last a.
Proof.
  induction a as [| v a IH]; [reflexivity |].
  destruct a as [| v' a]; [reflexivity |].
  cbn [map]. rewrite !last_cons_cons. exact IH.
Qed.

Lemma scaled_first_row (q : Qc) (p : list (list Qc)) :
  match scaled q p with [] => 0%nat | r :: _ => length r end
  = match p with [] => 0%nat | r :: _ => length r end.
Proof. destruct p as [| r p]; [reflexivity |]. cbn. apply length_map. Qed.

(** X10: a conversion keeps the shapes.  The converted phase has the rows
    of the phase, each of its length, and an in-place conversion of the phase
    leaves [shape] as it was; the converted axes have the lengths of the
    axes, but for a pixel target, where [x] gets the number of columns of the
    grid and [y] its number of rows, whatever the lengths of the axes
    were. *)
Theorem conversions_keep_shapes (to : string) (e e' : t) :
  (forall p, change_phase_unit to false e = (Ok (Array p), e') ->
     map length p = map length (phase e)) /\
  (forall r, change_phase_unit to true e = (Ok r, e') -> shape e' = shape e) /\
  (forall ux uy, change_spatial_unit to false e = (Ok (Axes ux uy), e') ->
     if decide (lower to = "px")
     then length ux = snd (shape e) /\ length uy = fst (shape e)
     else length ux = length (x e) /\ length uy = length (y e)).
Proof.
  split.
  { intros p. rewrite change_phase_unit_run.
    destruct (new_phase to e) as [p0 | ex] eqn:Hp; [| discriminate].
    intros [= <- <-].
    destruct (new_phase_ok to e p0 Hp) as (_ & q & _ & _ & _ & ->).
    apply scaled_shape. }
  split.
  { intros r H. apply change_phase_unit_in_place in H
      as (_ & p & c & Hp & _ & ->).
    destruct (new_phase_ok to e p Hp) as (_ & q & _ & _ & _ & ->).
    unfold shape. cbn [phase with__phase_unit with_phase].
    rewrite scaled_first_row. unfold scaled. rewrite length_map. reflexivity. }
  intros ux uy. rewrite change_spatial_unit_run.
  destruct (new_axes to e) as [[ux0 uy0] | ex] eqn:Ha; [| discriminate].
  intros [= <- <- <-].
  destruct (new_axes_ok to e ux0 uy0 Ha)
    as [(Hpx & -> & ->) | (Hpx & _ & q & _ & _ & _ & -> & ->)].
  - destruct (decide (lower to = "px")); [| contradiction].
    rewrite !arange_length. auto.
  - destruct (decide (lower to = "px")); [contradiction |].
    rewrite !length_map. auto.
Qed.

Lemma conversions_keep_shapes_witness :
  shape (snd (change_phase_unit "mm" true hene_nm)) = shape hene_nm.
Proof.
  assert (Hrun : change_phase_unit "mm" true hene_nm
                 = (Ok Self, snd (change_phase_unit "mm" true hene_nm)))
    by compute_done.
  destruct (conversions_keep_shapes "mm" hene_nm
              (snd (change_phase_unit "mm" true hene_nm))) as (_ & H & _).
  exact (H Self Hrun).
Defined.

(** [diameter] raises on an empty axis, and nothing but [IndexError]. *)
Lemma diameter_on_empty_axis (e : t) :
  (x e = [] \/ y e = [] -> diameter e = Raise IndexError) /\
  (forall ex, diameter e = Raise ex -> ex = IndexError).
Proof.
  unfold diameter, diameter_x, diameter_y, final, first.
  destruct (x e) as [| x0 xs]; cbn [head last rbind].
  { destruct (last (y e)); cbn [rbind]; split; intros; congruence. }
  destruct (last (x0 :: xs)) as [xl |] eqn:Hxl;
    [| apply last_None in Hxl; discriminate Hxl].
  cbn [rbind].
  destruct (y e) as [| y0 ys]; cbn [last rbind].
  { split; intros; congruence. }
  destruct (last (y0 :: ys)) as [yl |] eqn:Hyl;
    [| apply last_None in Hyl; discriminate Hyl].
  cbn [rbind]. split; [intros [H | H]; discriminate H | intros ex H; discriminate H].
Qed.

(** X11: the diameters raise [IndexError] on empty axes and nothing else:
    [diameter_x] exactly when [x] is empty, and [diameter_y], [diameter] and
    [semidiameter] exactly when [x] or [y] is empty. *)
Theorem diameters_on_empty_axes (e : t) :
  (diameter_x e = Raise IndexError <-> x e = []) /\
  (diameter_y e = Raise IndexError <-> (x e = [] \/ y e = [])) /\
  (diameter e = Raise IndexError <-> (x e = [] \/ y e = [])) /\
  (semidiameter e = Raise IndexError <-> (x e = [] \/ y e = [])) /\
  (forall ex, semidiameter e = Raise ex -> ex = IndexError).
Proof.
  unfold semidiameter, diameter, diameter_x, diameter_y, final, first.
  destruct (x e) as [| x0 xs] eqn:Hx; cbn [head last rbind].
  { destruct (last (y e)); cbn [rbind];
      repeat split; intros; try congruence; auto. }
  destruct (last (x0 :: xs)) as [xl |] eqn:Hxl;
    [| apply last_None in Hxl; discriminate Hxl].
  cbn [rbind].
  destruct (y e) as [| y0 ys] eqn:Hy; cbn [last rbind].
  { repeat split; intros; try congruence; auto. }
  destruct (last (y0 :: ys)) as [yl |] eqn:Hyl;
    [| apply last_None in Hyl; discriminate Hyl].
  cbn [rbind].
  repeat split; intros; try congruence; intuition discriminate.
Qed.

Lemma diameters_on_empty_axes_witness :
  semidiameter (with_x [] grid_mm) = Raise IndexError.
Proof.
  destruct (diameters_on_empty_axes (with_x [] grid_mm)) as (_ & _ & _ & H & _).
  apply H. left. reflexivity.
Defined.

(** X12: an in-place conversion of the axes that takes the factor branch
    divides the diameters by the factor: [diameter_x] and [diameter_y] for
    any factor, [diameter] and [semidiameter] for a positive one. *)
Theorem diameters_follow_the_axes (to : string) (e e' : t) (r : returned) :
  change_spatial_unit to true e = (Ok r, e') ->
  lower to <> "px" ->
  exists target q,
    units !! to = Some target /\
    factor (spatial_unit e) target (wavelength e) = Some (Ok (PyFloat q)) /\
    (forall d, diameter_x e = Ok d -> diameter_x e' = Ok (d / q)) /\
    (forall d, diameter_y e = Ok d -> diameter_y e' = Ok (d / q)) /\
    (0 < q -> forall d, diameter e = Ok d -> diameter e' = Ok (d / q)) /\
    (0 < q -> forall d, semidiameter e = Ok d -> semidiameter e' = Ok (d / q)).
Proof.
  intros H Hpx. apply change_spatial_unit_in_place in H
    as (_ & ux & uy & c & Ha & _ & ->).
  destruct (new_axes_ok to e ux uy Ha)
    as [(Hpx' & _) | (_ & target & q & Ht & Hf & Hq & -> & ->)];
    [contradiction |].
  exists target, q. split; [exact Ht |]. split; [exact Hf |].
  assert (Hdx : forall d, diameter_x e = Ok d ->
            diameter_x (with__spatial_unit c (with_y (map (fun v => v / q) (y e))
                          (with_x (map (fun v => v / q) (x e)) e))) = Ok (d / q)).
  { intros d. unfold diameter_x, final, first. cbn [x with__spatial_unit with_y with_x].
    rewrite last_map, head_map.
    destruct (last (x e)) as [xl |]; [| discriminate]. cbn [rbind fmap option_fmap option_map].
    destruct (head (x e)) as [xf |]; [| discriminate]. cbn [rbind fmap option_fmap option_map].
    intros [= <-]. f_equal. by apply Qc_div_sub. }
  assert (Hdy : forall d, diameter_y e = Ok d ->
            diameter_y (with__spatial_unit c (with_y (map (fun v => v / q) (y e))
                          (with_x (map (fun v => v / q) (x e)) e))) = Ok (d / q)).
  { intros d. unfold diameter_y, final, first.
    cbn [x y with__spatial_unit with_y with_x].
    rewrite last_map, head_map.
    destruct (last (y e)) as [yl |]; [| discriminate]. cbn [rbind fmap option_fmap option_map].
    destruct (head (x e)) as [xf |]; [| discriminate]. cbn [rbind fmap option_fmap option_map].
    intros [= <-]. f_equal. by apply Qc_div_sub. }
  assert (Hd : 0 < q -> forall d, diameter e = Ok d ->
            diameter (with__spatial_unit c (with_y (map (fun v => v / q) (y e))
                        (with_x (map (fun v => v / q) (x e)) e))) = Ok (d / q)).
  { intros Hpos d. unfold diameter.
    destruct (diameter_x e) as [dx |] eqn:Ex; [| discriminate]. cbn [rbind].
    destruct (diameter_y e) as [dy |] eqn:Ey; [| discriminate]. cbn [rbind].
    intros [= <-]. rewrite (Hdx dx eq_refl), (Hdy dy eq_refl). cbn [rbind].
    f_equal. by apply max2_div. }
  split; [exact Hdx |]. split; [exact Hdy |]. split; [exact Hd |].
  intros Hpos d. unfold semidiameter.
  destruct (diameter e) as [d0 |] eqn:Ed; [| discriminate]. cbn [rbind].
  intros [= <-]. rewrite (Hd Hpos d0 eq_refl). cbn [rbind]. f_equal.
  assert (H2 : Q2Qc 2 <> 0) by discriminate. qc_field.
Qed.

Lemma diameters_follow_the_axes_witness :
  diameter_x (snd (change_spatial_unit "micron" true grid_mm))
    = Ok ((1 - Q2Qc (-1)) / Q2Qc 1e-3).
Proof.
  assert (Hrun : change_spatial_unit "micron" true grid_mm
                 = (Ok Self, snd (change_spatial_unit "micron" true grid_mm)))
    by compute_done.
  destruct (diameters_follow_the_axes "micron" grid_mm _ Self Hrun)
    as (target & q & Ht & Hf & Hdx & _); [discriminate |].
  assert (Hq : factor (spatial_unit grid_mm) "μm" (wavelength grid_mm)
               = Some (Ok (PyFloat (Q2Qc 1e-3)))) by reflexivity.
  assert (Hu : units !! "micron" = Some "μm") by reflexivity.
  rewrite Hu in Ht. injection Ht as <-.
  rewrite Hq in Hf. injection Hf as <-.
  apply Hdx. reflexivity.
Defined.

End Shapes.

Section PixelAxes.

Lemma arange_first (n : nat) : head (np.arange (S n)) = Some 0.
Proof. reflexivity. Qed.

Lemma arange_last (n : nat) :
  last (np.arange (S n)) = Some (Q2Qc (inject_Z (Z.of_nat n))).
Proof.
  unfold np.arange. rewrite seq_S, map_app. cbn [map]. apply last_snoc.
Qed.

(** X13: after an in-place conversion of the axes to a pixel target on a
    grid of [rows + 1] by [cols + 1] samples, [diameter_x] is [cols],
    [diameter_y] is [rows] and [diameter] is the larger of the two, whatever
    the axes were. *)
Theorem pixel_diameters (to : string) (e : t) (rows cols : nat) :
  lower to = "px" ->
  shape e = (S rows, S cols) ->
  fst (change_spatial_unit to true e) = Ok Self /\
  diameter_x (snd (change_spatial_unit to true e))
    = Ok (Q2Qc (inject_Z (Z.of_nat cols))) /\
  diameter_y (snd (change_spatial_unit to true e))
    = Ok (Q2Qc (inject_Z (Z.of_nat rows))) /\
  diameter (snd (change_spatial_unit to true e))
    = Ok (max2 (Q2Qc (inject_Z (Z.of_nat cols))) (Q2Qc (inject_Z (Z.of_nat rows)))).
Proof.
  intros Hpx Hs.
  destruct (pixel_literal_regenerates_axes to true e Hpx) as (_ & Hrun & _).
  rewrite Hrun, Hs. cbn [fst snd].
  assert (Hdx : diameter_x
                  (with__spatial_unit "px"
                     (with_y (np.arange (S rows)) (with_x (np.arange (S cols)) e)))
                = Ok (Q2Qc (inject_Z (Z.of_nat cols)))).
  { unfold diameter_x, final, first. cbn [x with__spatial_unit with_y with_x].
    rewrite arange_last, arange_first. cbn [rbind]. f_equal. ring. }
  assert (Hdy : diameter_y
                  (with__spatial_unit "px"
                     (with_y (np.arange (S rows)) (with_x (np.arange (S cols)) e)))
                = Ok (Q2Qc (inject_Z (Z.of_nat rows)))).
  { unfold diameter_y, final, first. cbn [x y with__spatial_unit with_y with_x].
    rewrite arange_last, arange_first. cbn [rbind]. f_equal. ring. }
  split; [reflexivity |]. split; [exact Hdx |]. split; [exact Hdy |].
  unfold diameter. rewrite Hdx, Hdy. reflexivity.
Qed.

Lemma pixel_diameters_witness :
  diameter_x (snd (change_spatial_unit "PX" true grid_mm)) = Ok (Q2Qc 2) /\
  diameter_y (snd (change_spatial_unit "PX" true grid_mm)) = Ok 1.
Proof.
  destruct (pixel_diameters "PX" grid_mm 1 2) as (_ & Hx & Hy & _);
    [reflexivity | reflexivity |].
  split; [exact Hx | exact Hy].
Defined.

End PixelAxes.

(** * The units that the setters store *)

Section StoredUnits.

Lemma units_value_is_key (a c : string) :
  units !! a = Some c -> units !! c = Some c.
Proof.
  intros H. apply units_lookup_items in H. unfold units_items in H.
  repeat (apply elem_of_cons in H as [[= -> ->] | H]; [reflexivity |]).
  by apply elem_of_nil in H.
Qed.

(** X14: normalization is idempotent.  The canonical code of every key of
    [units] is itself a key with itself as code; the phase setter accepts the
    code it stored and stores it again, and so does the spatial setter for
    every code but ['Å']. *)
Theorem normalization_is_idempotent (a c : string) (e : t) :
  units !! a = Some c ->
  units !! c = Some c /\
  set_phase_unit c (snd (set_phase_unit a e))
    = (Ok tt, snd (set_phase_unit a e)) /\
  (c <> "Å" ->
   set_spatial_unit c (snd (set_spatial_unit a e))
     = (Ok tt, snd (set_spatial_unit a e))).
Proof.
  intros H. pose proof (units_value_is_key a c H) as Hc.
  split; [exact Hc |]. split.
  - rewrite (set_phase_unit_alias a c e H). cbn [snd].
    rewrite (set_phase_unit_alias c c _ Hc). reflexivity.
  - intros Hne.
    assert (Ha : a <> "Å").
    { intros ->. apply Hne.
      assert (Hu : units !! "Å" = Some "Å") by reflexivity.
      rewrite Hu in H. by injection H. }
    rewrite (set_spatial_unit_alias a c e H Ha). cbn [snd].
    rewrite (set_spatial_unit_alias c c _ Hc Hne). reflexivity.
Qed.

Lemma normalization_is_idempotent_witness :
  set_phase_unit "μm" (snd (set_phase_unit "micron" hene_nm))
    = (Ok tt, snd (set_phase_unit "micron" hene_nm)).
Proof.
  destruct (normalization_is_idempotent "micron" "μm" hene_nm) as (_ & H & _);
    [reflexivity | exact H].
Defined.

Lemma after_keeps_stored_canonical (c : call) (e : t) :
  unset_or_canonical (_phase_unit e) ->
  unset_or_canonical (_spatial_unit e) ->
  unset_or_canonical (_phase_unit (after c e)) /\
  unset_or_canonical (_spatial_unit (after c e)).
Proof.
  intros Hp Hs.
  assert (Hset : forall u s, unset_or_canonical (_phase_unit s) ->
            unset_or_canonical (_spatial_unit s) ->
            unset_or_canonical (_phase_unit (snd (set_phase_unit u s))) /\
            unset_or_canonical (_spatial_unit (snd (set_phase_unit u s)))).
  { intros u s Hp' Hs'. rewrite set_phase_unit_run.
    destruct (decide (lower u = "å")) as [E | E].
    - rewrite E. split; [compute_done | exact Hs'].
    - destruct (units !! lower u) as [k |] eqn:Hk; [| by split].
      split; [| exact Hs']. apply canonical_codes_values. eauto. }
  assert (Hset' : forall u s, unset_or_canonical (_phase_unit s) ->
            unset_or_canonical (_spatial_unit s) ->
            unset_or_canonical (_phase_unit (snd (set_spatial_unit u s))) /\
            unset_or_canonical (_spatial_unit (snd (set_spatial_unit u s)))).
  { intros u s Hp' Hs'. rewrite set_spatial_unit_run.
    destruct (units !! lower u) as [k |] eqn:Hk; [| by split].
    split; [exact Hp' |]. apply canonical_codes_values. eauto. }
  unfold after. destruct c as [u | u | to inplace | to inplace]; cbn [outcome].
  - unfold bind, ret. specialize (Hset u e Hp Hs).
    destruct (set_phase_unit u e) as [[[] | ex] s]; exact Hset.
  - unfold bind, ret. specialize (Hset' u e Hp Hs).
    destruct (set_spatial_unit u e) as [[[] | ex] s]; exact Hset'.
  - rewrite change_phase_unit_run.
    destruct (new_phase to e) as [p | ex]; [| by split].
    destruct inplace; [| by split].
    specialize (Hset to (with_phase p e) Hp Hs).
    destruct (set_phase_unit to (with_phase p e)) as [[[] | ex] s]; exact Hset.
  - rewrite change_spatial_unit_run.
    destruct (new_axes to e) as [[ux uy] | ex]; [| by split].
    destruct inplace; [| by split].
    specialize (Hset' to (with_y uy (with_x ux e)) Hp Hs).
    destruct (set_spatial_unit to _) as [[[] | ex] s]; exact Hset'.
Qed.

(** X15: what the setters store is canonical.  On a constructed instance
    [_phase_unit] and [_spatial_unit] are unset, and after any sequence of
    assignments to the unit properties and of conversions, returning or
    raising, each is unset or holds a canonical code. *)
Theorem stored_units_are_canonical (cs : list call) (e : t) :
  unset_or_canonical (_phase_unit e) ->
  unset_or_canonical (_spatial_unit e) ->
  unset_or_canonical (_phase_unit (after_all cs e)) /\
  unset_or_canonical (_spatial_unit (after_all cs e)).
Proof.
  revert e. induction cs as [| c cs IH]; intros e Hp Hs; [by split |].
  cbn [after_all fold_left]. fold (after_all cs (after c e)).
  destruct (after_keeps_stored_canonical c e Hp Hs) as [Hp' Hs'].
  by apply IH.
Qed.

Lemma stored_units_are_canonical_witness :
  unset_or_canonical
    (_phase_unit (after_all [SetPhaseUnit "Angstrom"; ChangePhaseUnit "waves" true]
                    hene_nm)) /\
  unset_or_canonical
    (_spatial_unit (after_all [SetPhaseUnit "Angstrom"; ChangePhaseUnit "waves" true]
                      hene_nm)).
Proof.
  apply (stored_units_are_canonical _ hene_nm); exact I.
Defined.

(** X16: an in-place conversion of the phase does not change the unit that
    the next conversion reads: the same call again succeeds again and divides
    the phase by the same factor again. *)
Theorem repeated_in_place_conversion (to : string) (e e' : t) (r : returned) :
  change_phase_unit to true e = (Ok r, e') ->
  exists q e'',
    q <> 0 /\
    phase e' = scaled q (phase e) /\
    change_phase_unit to true e' = (Ok Self, e'') /\
    phase e'' = scaled q (phase e') /\
    phase_unit e'' = phase_unit e.
Proof.
  intros H. apply change_phase_unit_in_place in H as (_ & p & c & Hp & Hc & ->).
  destruct (new_phase_ok to e p Hp) as (target & q & Ht & Hf & Hq & ->).
  apply factor_entry in Hf as (f & Hf & Hr).
  exists q.
  exists (with__phase_unit c
            (with_phase (scaled q (scaled q (phase e)))
               (with__phase_unit c (with_phase (scaled q (phase e)) e)))).
  split; [exact Hq |]. split; [reflexivity |]. split; [| split; reflexivity].
  rewrite (change_phase_unit_divides to target true
             (with__phase_unit c (with_phase (scaled q (phase e)) e))
             f (PyFloat q) Ht Hf Hr).
  cbn [phase with__phase_unit with_phase].
  rewrite divide2_float by exact Hq. fold (scaled q (scaled q (phase e))).
  rewrite (set_phase_unit_alias to c _ Hc). reflexivity.
Qed.

Lemma repeated_in_place_conversion_witness :
  exists q e'',
    q <> 0 /\
    change_phase_unit "mm" true (snd (change_phase_unit "mm" true hene_nm))
      = (Ok Self, e'') /\
    phase e'' = scaled q (scaled q (phase hene_nm)).
Proof.
  assert (Hrun : change_phase_unit "mm" true hene_nm
                 = (Ok Self, snd (change_phase_unit "mm" true hene_nm)))
    by compute_done.
  destruct (repeated_in_place_conversion "mm" hene_nm _ Self Hrun)
    as (q & e'' & Hq & H1 & H2 & H3 & _).
  exists q, e''. split; [exact Hq |]. split; [exact H2 |].
  rewrite H3, H1. reflexivity.
Defined.

End StoredUnits.

(** * The interferogram *)

Section Interferogram.

Context {pixel canvas figure axes image failure : Type}.
Context (fringe : Qc -> Qc -> Qc -> pixel).
Context
  (share_fig_ax : option figure -> option axes -> canvas ->
                  (failure + figure * axes) * canvas)
  (ax_imshow : axes -> imshow_arguments (pixel := pixel) -> canvas ->
               (failure + image) * canvas)
  (fig_colorbar : figure -> image -> string -> axes -> Qc -> canvas ->
                  (failure + Datatypes.unit) * canvas)
  (ax_set : axes -> string -> string -> canvas ->
            (failure + Datatypes.unit) * canvas).

Lemma pixels_shape (g : Qc -> pixel) (p : list (list Qc)) :
  map length (map (map g) p) = map length p.
Proof.
  induction p as [| row p IH]; [reflexivity |].
  cbn [map]. rewrite length_map, IH. reflexivity.
Qed.


End Interferogram.


(** * Conversions that need no wavelength *)

Section Metric.

Lemma metric_target_is_not_pixel (to target : string) :
  units !! to = Some target -> target ∈ metric_codes -> lower to <> "px".
Proof.
  intros Ht Hm Hpx.
  destruct (units_key_lower to target Ht) as [(Hl & _) | (Hl & _)].
  - rewrite Hl in Hpx. discriminate Hpx.
  - rewrite Hl in Hpx. subst to.
    assert (Hu : units !! "px" = Some "px") by reflexivity.
    rewrite Hu in Ht. injection Ht as <-.
    assert (Hn : ~ "px" ∈ metric_codes) by compute_done. contradiction.
Qed.

(** X18: between metric units the wavelength is not read.  Whatever the
    wavelength is, missing or zero included, the conversion of the phase and
    the conversion of the axes succeed and divide by the positive ratio of
    the two entries of [unit_scales]. *)
Theorem metric_conversions_need_no_wavelength (to target : string) (e : t) :
  units !! to = Some target -> target ∈ metric_codes ->
  (phase_unit e ∈ metric_codes ->
   exists sa sb,
     unit_scales !! phase_unit e = Some sa /\ unit_scales !! target = Some sb /\
     0 < sb / sa /\
     change_phase_unit to false e
       = (Ok (Array (scaled (sb / sa) (phase e))), e)) /\
  (spatial_unit e ∈ metric_codes ->
   exists sa sb,
     unit_scales !! spatial_unit e = Some sa /\ unit_scales !! target = Some sb /\
     0 < sb / sa /\
     change_spatial_unit to false e
       = (Ok (Axes (map (fun v => v / (sb / sa)) (x e))
                   (map (fun v => v / (sb / sa)) (y e))), e)).
Proof.
  intros Ht Hm. split.
  - intros Hu.
    destruct (metric_factor_ratio _ _ (wavelength e) Hu Hm)
      as (sa & sb & f & Hsa & Hsb & Hf & Hpos & ->).
    exists sa, sb. split; [exact Hsa |]. split; [exact Hsb |].
    split; [exact Hpos |].
    apply (change_phase_unit_scaled to target); [exact Ht | exact Hf |].
    by apply Qc_pos_nonzero.
  - intros Hu.
    destruct (metric_factor_ratio _ _ (wavelength e) Hu Hm)
      as (sa & sb & f & Hsa & Hsb & Hf & Hpos & ->).
    exists sa, sb. split; [exact Hsa |]. split; [exact Hsb |].
    split; [exact Hpos |].
    apply (change_spatial_unit_copy to target);
      [by apply (metric_target_is_not_pixel to target) | exact Ht | exact Hf |].
    by apply Qc_pos_nonzero.
Qed.

Lemma metric_conversions_need_no_wavelength_witness :
  exists sa sb,
    unit_scales !! spatial_unit grid_mm = Some sa /\
    unit_scales !! "μm" = Some sb /\
    0 < sb / sa /\
    change_spatial_unit "micron" false grid_mm
      = (Ok (Axes (map (fun v => v / (sb / sa)) (x grid_mm))
                  (map (fun v => v / (sb / sa)) (y grid_mm))), grid_mm).
Proof.
  destruct (metric_conversions_need_no_wavelength "micron" "μm" grid_mm)
    as [_ H]; [reflexivity | compute_done |].
  apply H. compute_done.
Defined.

(** X19: for every target whose lower-casing is the literal ['px'], in any
    case, [change_spatial_unit] reads no table entry and no wavelength and
    returns [x] as [0, 1, ..., sx-1] and [y] as [0, 1, ..., sy-1], where
    (sy, sx) is the shape of the grid, whatever the spatial unit and the axes
    were; in place it stores them with ['px'] in [_spatial_unit] and returns
    [self]. *)
Theorem pixel_literal_target (to : string) (inplace : bool) (e : t) :
  lower to = "px" ->
  change_spatial_unit to inplace e =
    (if inplace
     then (Ok Self,
           with__spatial_unit "px"
             (with_y (np.arange (fst (shape e)))
                (with_x (np.arange (snd (shape e))) e)))
     else (Ok (Axes (np.arange (snd (shape e))) (np.arange (fst (shape e)))), e)) /\
  (forall n, length (np.arange n) = n) /\
  (forall n i, (i < n)%nat ->
     np.arange n !! i = Some (Q2Qc (inject_Z (Z.of_nat i)))).
Proof.
  intros Hpx.
  destruct (pixel_literal_regenerates_axes to inplace e Hpx) as (_ & H).
  exact H.
Qed.

Lemma pixel_literal_target_witness :
  change_spatial_unit "Px" true shifted_pixels
    = (Ok Self,
       with__spatial_unit "px" (with_y [0] (with_x [0; 1] shifted_pixels))).
Proof.
  destruct (pixel_literal_target "Px" true shifted_pixels) as (H & _);
    [reflexivity |].
  rewrite H. reflexivity.
Defined.

End Metric.
